(** * Sector Alarm API client: a shallow embedding of
      [custom_components/sector/client.py] and its verified properties.

    The client is a Python class [SectorAlarmAPI] whose coroutines talk to
    a remote service through an [aiohttp] session.  The embedding keeps
    the shape of the source:

    - decoded JSON values are Python values ([None] is JSON null);
    - the instance attributes form the record [api];
    - every coroutine is a computation in a small state-and-exception
      monad [M] over a [world] holding the instance, a request counter
      and the trace of what was done on the wire;
    - each [await] on the HTTP library is answered by an oracle [net],
      which may return a value or raise, exactly the two ways an [await]
      can finish.  The ten-second bound of [async_timeout.timeout(10)]
      shows up as the oracle answering [TimeoutError].

    Calls to [_LOGGER] have no effect on the values computed and are left
    out; the [await response.text()] that feeds them is kept, since it is
    an [await] and may raise.  The credentials given to the constructor
    are strings.  Leaving an [async with] block and [session.close()] are
    taken to succeed. *)

From Stdlib Require Import ZArith String Ascii Strings.Byte List Floats.PrimFloat.
From stdpp Require Import base strings gmap list.

Set Warnings "-register-all".

Local Open Scope string_scope.
Local Open Scope Z_scope.

(** ** Python values *)

(** What [json.loads] produces: dict, list, str, int, float, bool, None.
    [JNull] is Python's [None]. A decoded object keeps its items in order. *)
Inductive json : Type :=
| JNull
| JBool (b : bool)
| JInt (n : Z)
| JFloat (f : float)
| JString (s : string)
| JArray (items : list json)
| JObject (fields : list (string * json)).

(** Python's truth value of a decoded JSON value ([if response:],
    [not self.access_token]). *)
Definition truthy (v : json) : bool :=
  match v with
  | JNull => false
  | JBool b => b
  | JInt n => negb (n =? 0)
  | JFloat f => negb (PrimFloat.eqb f PrimFloat.zero)
  | JString s => negb (String.eqb s "")
  | JArray items => match items with [] => false | _ => true end
  | JObject fields => match fields with [] => false | _ => true end
  end.

(** [v is not None]. *)
Definition is_not_None (v : json) : bool :=
  match v with JNull => false | _ => true end.

(** ** Exceptions and the outcome of a call *)

Inductive exn : Type :=
| TimeoutError                       (* asyncio.TimeoutError *)
| ClientError                        (* aiohttp.ClientError and its subclasses *)
| AuthenticationError (msg : string) (* the module's own exception *)
| PyError (cls : string).            (* any other exception class, by name *)

Inductive res (A : Type) : Type :=
| Ret (a : A)
| Raise (e : exn).
Arguments Ret {A} a.
Arguments Raise {A} e.

(** [d.get(key)]: only a dict has the method; a missing key gives [None]. *)
Fixpoint assoc (key : string) (fields : list (string * json)) : option json :=
  match fields with
  | [] => None
  | (k, v) :: rest => if String.eqb k key then Some v else assoc key rest
  end.

Definition py_get (d : json) (key : string) : res json :=
  match d with
  | JObject fields => Ret (default JNull (assoc key fields))
  | _ => Raise (PyError "AttributeError")
  end.

(** [needle in haystack] on strings. *)
Fixpoint contains (needle haystack : string) : bool :=
  if String.prefix needle haystack then true
  else match haystack with
       | EmptyString => false
       | String _ rest => contains needle rest
       end.

(** ** The HTTP library seen from the client *)

(** The keyword arguments of [session.get] / [session.post]. A call that
    passes no [json=] has [rq_json = None]; a call that passes no
    [headers=] sends the empty header set. *)
Record request : Type := mk_request {
  rq_method : string;
  rq_url : string;
  rq_json : option json;
  rq_headers : gmap string string
}.

(** What the client looks at in a response: the status, the
    [Content-Type] header if there is one, and the outcomes of the two
    awaits [response.json()] and [response.text()]. *)
Record response : Type := mk_response {
  status : Z;
  content_type : option string;
  json_ : res json;
  text_ : res string
}.

Definition handle : Type := nat.

Inductive event : Type :=
| EOpen (h : handle)                 (* aiohttp.ClientSession() *)
| ESend (h : handle) (rq : request)  (* session.get / session.post *)
| EClose (h : handle).               (* session.close() *)

(** ** The instance and the world around it *)

(** [self.data_endpoints] is a dict that the client iterates, so its items
    are kept in insertion order; [self.action_endpoints] is a dict that is
    only indexed. Both map a logical key to [(method, url)]. *)
Record api : Type := mk_api {
  email : string;
  password : string;
  panel_id : string;
  panel_code : string;
  access_token : json;
  headers : gmap string string;
  session : option handle;
  data_endpoints : list (string * (string * string));
  action_endpoints : gmap string (string * string)
}.

Record world : Type := mk_world {
  self : api;
  clock : nat;          (* requests sent so far *)
  opened : nat;         (* sessions created so far *)
  trace : list event
}.

Definition M (A : Type) : Type := world → res A * world.

Definition ret {A} (a : A) : M A := fun w => (Ret a, w).
Definition raise {A} (e : exn) : M A := fun w => (Raise e, w).
Definition bind {A B} (m : M A) (k : A → M B) : M B :=
  fun w => match m w with
           | (Ret a, w') => k a w'
           | (Raise e, w') => (Raise e, w')
           end.
Definition lift {A} (r : res A) : M A := fun w => (r, w).

Notation "x <- m ;; k" := (bind m (fun x => k))
  (at level 100, m at next level, right associativity).

(** [try: body except ...]: [handler e] is the clause that catches [e],
    if there is one. A raise keeps the mutations made before it. *)
Definition try_except {A} (body : M A) (handler : exn → option (M A)) : M A :=
  fun w => match body w with
           | (Ret a, w') => (Ret a, w')
           | (Raise e, w') =>
               match handler e with
               | Some k => k w'
               | None => (Raise e, w')
               end
           end.

Definition get_self : M api := fun w => (Ret (self w), w).

Definition with_self (f : api → api) : M unit :=
  fun w => (Ret tt, mk_world (f (self w)) (clock w) (opened w) (trace w)).

Definition set_access_token (v : json) (a : api) : api :=
  mk_api (email a) (password a) (panel_id a) (panel_code a)
         v (headers a) (session a) (data_endpoints a) (action_endpoints a).

Definition set_headers (hs : gmap string string) (a : api) : api :=
  mk_api (email a) (password a) (panel_id a) (panel_code a)
         (access_token a) hs (session a) (data_endpoints a) (action_endpoints a).

Definition set_session (s : option handle) (a : api) : api :=
  mk_api (email a) (password a) (panel_id a) (panel_code a)
         (access_token a) (headers a) s (data_endpoints a) (action_endpoints a).

(** [aiohttp.ClientSession()]: a new connection resource. *)
Definition open_session : M unit :=
  fun w => let h := opened w in
           (Ret tt, mk_world (set_session (Some h) (self w)) (clock w)
                             (S h) (trace w ++ [EOpen h])).

(** [await self.session.close()] followed by [self.session = None]. *)
Definition close_session (h : handle) : M unit :=
  fun w => (Ret tt, mk_world (set_session None (self w)) (clock w)
                             (opened w) (trace w ++ [EClose h])).

(** ** [base64.b64decode]

    The standard library's decoder with its default [validate=False],
    after CPython's [binascii.a2b_base64] in non-strict mode: characters
    outside the alphabet are skipped, a complete pad sequence ends the
    input, and leftover characters in the last quad are an error. *)

Definition b64_value (c : ascii) : option N :=
  let n := N_of_ascii c in
  if ((65 <=? n) && (n <=? 90))%N then Some (n - 65)%N
  else if ((97 <=? n) && (n <=? 122))%N then Some (n - 71)%N
  else if ((48 <=? n) && (n <=? 57))%N then Some (n + 4)%N
  else if (n =? 43)%N then Some 62%N
  else if (n =? 47)%N then Some 63%N
  else None.

Definition out_byte (n : N) : byte := byte_of_ascii (ascii_of_N n).

Fixpoint a2b_loop (s : string) (quad_pos : nat) (leftchar : N) (pads : nat)
         (out : list byte) : res (list byte) :=
  match s with
  | EmptyString =>
      match quad_pos with
      | O => Ret out
      | _ => Raise (PyError "binascii.Error")
      end
  | String c rest =>
      if Ascii.eqb c "="%char then
        if (2 <=? quad_pos)%nat then
          if (4 <=? quad_pos + S pads)%nat then Ret out
          else a2b_loop rest quad_pos leftchar (S pads) out
        else a2b_loop rest quad_pos leftchar pads out
      else
        match b64_value c with
        | None => a2b_loop rest quad_pos leftchar pads out
        | Some v =>
            match quad_pos with
            | 0%nat => a2b_loop rest 1 v 0 out
            | 1%nat =>
                a2b_loop rest 2 (N.land v 15) 0
                  (out ++ [out_byte (N.lor (N.shiftl leftchar 2) (N.shiftr v 4))])
            | 2%nat =>
                a2b_loop rest 3 (N.land v 3) 0
                  (out ++ [out_byte (N.lor (N.shiftl leftchar 4) (N.shiftr v 2))])
            | _ =>
                a2b_loop rest 0 0%N 0
                  (out ++ [out_byte (N.lor (N.shiftl leftchar 6) v)])
            end
        end
  end.

Definition is_ascii (c : ascii) : bool := (N_of_ascii c <? 128)%N.

Fixpoint all_ascii (s : string) : bool :=
  match s with
  | EmptyString => true
  | String c rest => is_ascii c && all_ascii rest
  end.

(** The argument must be a [str] of ASCII characters (the client never
    passes [bytes]). *)
Definition b64decode (v : json) : res (list byte) :=
  match v with
  | JString s =>
      if all_ascii s then a2b_loop s 0 0%N 0 []
      else Raise (PyError "ValueError")
  | _ => Raise (PyError "TypeError")
  end.

Definition API_URL : string := "https://mypagesapi.sectoralarm.net".

(** The header set [login] derives from a token [t]:
    [{"Authorization": f"Bearer {t}", "Accept": "application/json"}],
    with [rendered] the text that the f-string puts for [t]. *)
Definition bearer_headers (rendered : string) : gmap string string :=
  <["Accept" := "application/json"]>
    (<["Authorization" := "Bearer " ++ rendered]> ∅).

(** The two [except] clauses every request is wrapped in. *)
Definition absorbed (e : exn) : bool :=
  match e with
  | TimeoutError | ClientError => true
  | _ => false
  end.

Section Client.

(** The remote service and the HTTP library: the answer to the
    [n]-th request sent through the session. *)
Variable net : nat → request → res response.

(** Python's [str()] on a decoded JSON value, as used by the f-string
    in [login]. *)
Variable py_str : json → string.

(** [endpoints.get_data_endpoints] and [endpoints.get_action_endpoints];
    the module is configuration consumed as data. *)
Variable get_data_endpoints : string → list (string * (string * string)).
Variable get_action_endpoints : gmap string (string * string).

Definition __init__ (email password panel_id panel_code : string) : api :=
  mk_api email password panel_id panel_code JNull ∅ None
         (get_data_endpoints panel_id) get_action_endpoints.

(** The world right after the constructor. *)
Definition new_world (email password panel_id panel_code : string) : world :=
  mk_world (__init__ email password panel_id panel_code) 0 0 [].

(** [async with self.session.get(...) / .post(...) as response]:
    without a session the attribute lookup on [None] fails before
    anything is sent. *)
Definition session_request (rq : request) : M response :=
  fun w => match session (self w) with
           | None => (Raise (PyError "AttributeError"), w)
           | Some h =>
               (net (clock w) rq,
                mk_world (self w) (S (clock w)) (opened w)
                         (trace w ++ [ESend h rq]))
           end.

Definition login : M unit :=
  s <- get_self ;;
  _ <- match session s with
       | None => open_session
       | Some _ => ret tt
       end ;;
  let login_url := API_URL ++ "/api/Login/Login" in
  let payload := JObject [("userId", JString (email s));
                          ("password", JString (password s))] in
  try_except
    (response <- session_request (mk_request "POST" login_url (Some payload) ∅) ;;
     if negb (status response =? 200) then
       raise (AuthenticationError "Invalid credentials")
     else
       data <- lift (json_ response) ;;
       token <- lift (py_get data "AuthorizationToken") ;;
       _ <- with_self (set_access_token token) ;;
       if negb (truthy token) then
         raise (AuthenticationError "Invalid credentials")
       else
         with_self (set_headers (bearer_headers (py_str token))))
    (fun e => match e with
              | TimeoutError =>
                  Some (raise (AuthenticationError "Timeout during login"))
              | ClientError =>
                  Some (raise (AuthenticationError "Client error during login"))
              | _ => None
              end).

(** What [_get] and [_post] both do, in the same words, once the
    response is there (lines 110-121 and 134-145). *)
Definition read_response (response : response) : M json :=
  if status response =? 200 then
    if contains "application/json" (default "" (content_type response)) then
      lift (json_ response)
    else
      _ <- lift (text_ response) ;; ret JNull
  else
    _ <- lift (text_ response) ;; ret JNull.

Definition on_request_error (e : exn) : option (M json) :=
  match e with
  | TimeoutError => Some (ret JNull)
  | ClientError => Some (ret JNull)
  | _ => None
  end.

Definition _get (url : string) : M json :=
  try_except
    (s <- get_self ;;
     response <- session_request (mk_request "GET" url None (headers s)) ;;
     read_response response)
    on_request_error.

Definition _post (url : string) (payload : json) : M json :=
  try_except
    (s <- get_self ;;
     response <- session_request (mk_request "POST" url (Some payload) (headers s)) ;;
     read_response response)
    on_request_error.

Definition get_lock_status : M json :=
  s <- get_self ;;
  let url := API_URL ++ "/api/panel/GetLockStatus?panelId=" ++ panel_id s in
  response <- _get url ;;
  if truthy response then ret response else ret (JArray []).

(** The [for] loop of [retrieve_all_data] over the items of
    [self.data_endpoints], with [data] the dict built so far. *)
Fixpoint fetch_entries (entries : list (string * (string * string)))
         (data : gmap string json) : M (gmap string json) :=
  match entries with
  | [] => ret data
  | (key, (method, url)) :: rest =>
      if String.eqb method "GET" then
        response <- _get url ;;
        fetch_entries rest
          (if truthy response then <[key := response]> data else data)
      else if String.eqb method "POST" then
        s <- get_self ;;
        let payload := JObject [("PanelId", JString (panel_id s))] in
        response <- _post url payload ;;
        fetch_entries rest
          (if truthy response then <[key := response]> data else data)
      else
        fetch_entries rest data
  end.

Definition retrieve_all_data : M (gmap string json) :=
  s <- get_self ;;
  data <- fetch_entries (data_endpoints s) ∅ ;;
  locks_status <- get_lock_status ;;
  ret (<["Lock Status" := locks_status]> data).

(** [self.action_endpoints[key][1]]. *)
Definition action_url (key : string) : M string :=
  s <- get_self ;;
  match action_endpoints s !! key with
  | Some (_, url) => ret url
  | None => raise (PyError "KeyError")
  end.

Definition arm_system (mode : string) : M bool :=
  url <- action_url "Arm" ;;
  s <- get_self ;;
  let payload := JObject [("ArmCode", JString (panel_code s));
                          ("PanelId", JString (panel_id s));
                          ("ArmType", JString mode)] in
  result <- _post url payload ;;
  if is_not_None result then ret true else ret false.

Definition disarm_system : M bool :=
  url <- action_url "Disarm" ;;
  s <- get_self ;;
  let payload := JObject [("DisarmCode", JString (panel_code s));
                          ("PanelId", JString (panel_id s))] in
  result <- _post url payload ;;
  if is_not_None result then ret true else ret false.

Definition lock_door (serial_no : string) : M bool :=
  url <- action_url "Lock" ;;
  s <- get_self ;;
  let payload := JObject [("LockSerial", JString serial_no);
                          ("PanelCode", JString (panel_code s));
                          ("PanelId", JString (panel_id s));
                          ("SerialNo", JString serial_no)] in
  result <- _post url payload ;;
  if is_not_None result then ret true else ret false.

Definition unlock_door (serial_no : string) : M bool :=
  url <- action_url "Unlock" ;;
  s <- get_self ;;
  let payload := JObject [("LockSerial", JString serial_no);
                          ("PanelCode", JString (panel_code s));
                          ("PanelId", JString (panel_id s));
                          ("SerialNo", JString serial_no)] in
  result <- _post url payload ;;
  if is_not_None result then ret true else ret false.

Definition turn_on_smartplug (plug_id : string) : M bool :=
  s <- get_self ;;
  let url := API_URL ++ "/api/Panel/TurnOnSmartplug" in
  let payload := JObject [("PanelId", JString (panel_id s));
                          ("DeviceId", JString plug_id)] in
  result <- _post url payload ;;
  if is_not_None result then ret true else ret false.

Definition turn_off_smartplug (plug_id : string) : M bool :=
  s <- get_self ;;
  let url := API_URL ++ "/api/Panel/TurnOffSmartplug" in
  let payload := JObject [("PanelId", JString (panel_id s));
                          ("DeviceId", JString plug_id)] in
  result <- _post url payload ;;
  if is_not_None result then ret true else ret false.

Definition get_camera_image (serial_no : string) : M (option (list byte)) :=
  s <- get_self ;;
  let url := API_URL ++ "/api/camera/GetCameraImage" in
  let payload := JObject [("PanelId", JString (panel_id s));
                          ("SerialNo", JString serial_no)] in
  response <- _post url payload ;;
  if truthy response then
    image <- lift (py_get response "ImageData") ;;
    if truthy image then
      image_data <- lift (b64decode image) ;;
      ret (Some image_data)
    else ret None
  else ret None.

Definition close : M unit :=
  s <- get_self ;;
  match session s with
  | Some h => close_session h
  | None => ret tt
  end.

Definition logout : M unit :=
  let logout_url := API_URL ++ "/api/Login/Logout" in
  _ <- _post logout_url (JObject []) ;;
  close.

End Client.

(** ** Vocabulary of the properties *)

Definition is_json (r : response) : bool :=
  contains "application/json" (default "" (content_type r)).

(** The world after a request [rq] went out through the session [h]. *)
Definition sent (h : handle) (rq : request) (w : world) : world :=
  mk_world (self w) (S (clock w)) (opened w) (trace w ++ [ESend h rq]).

Definition get_request (a : api) (url : string) : request :=
  mk_request "GET" url None (headers a).

Definition post_request (a : api) (url : string) (payload : json) : request :=
  mk_request "POST" url (Some payload) (headers a).

Definition login_request (a : api) : request :=
  mk_request "POST" (API_URL ++ "/api/Login/Login")
    (Some (JObject [("userId", JString (email a));
                    ("password", JString (password a))])) ∅.

Definition logout_request (a : api) : request :=
  post_request a (API_URL ++ "/api/Login/Logout") (JObject []).

Definition lock_status_url (a : api) : string :=
  API_URL ++ "/api/panel/GetLockStatus?panelId=" ++ panel_id a.

Definition camera_url : string := API_URL ++ "/api/camera/GetCameraImage".

Definition camera_payload (a : api) (serial_no : string) : json :=
  JObject [("PanelId", JString (panel_id a)); ("SerialNo", JString serial_no)].

Definition panel_payload (a : api) : json :=
  JObject [("PanelId", JString (panel_id a))].

(** What the awaits of one exchange amount to, before and after the two
    [except] clauses: [exchange] is the value or exception of the [try]
    body given the answer to the request, [settle] what the executor
    makes of it. *)
Definition exchange (answer : res response) : res json :=
  match answer with
  | Raise e => Raise e
  | Ret r =>
      if (status r =? 200) && is_json r then json_ r
      else match text_ r with
           | Ret _ => Ret JNull
           | Raise e => Raise e
           end
  end.

Definition settle (answer : res response) : res json :=
  match exchange answer with
  | Ret v => Ret v
  | Raise e => if absorbed e then Ret JNull else Raise e
  end.

(** The outcomes of a request the Request Executor is specified on, each
    with the result it has to give: a decoded 200 JSON response, a
    response with another status or content type, a timeout or a
    transport error when the request is sent or while the response is
    read. *)
Inductive outcome : res response → json → Prop :=
| outcome_json r v :
    status r = 200 → is_json r = true → json_ r = Ret v →
    outcome (Ret r) v
| outcome_bad_status r t :
    status r ≠ 200 → text_ r = Ret t →
    outcome (Ret r) JNull
| outcome_not_json r t :
    status r = 200 → is_json r = false → text_ r = Ret t →
    outcome (Ret r) JNull
| outcome_timeout :
    outcome (Raise TimeoutError) JNull
| outcome_transport :
    outcome (Raise ClientError) JNull
| outcome_late r e :
    exchange (Ret r) = Raise e → absorbed e = true →
    outcome (Ret r) JNull.

(** The six action operations, their payloads and target URLs as the
    interface describes them, and the dispatch to the client's methods. *)
Inductive action : Type :=
| Arm (mode : string)
| Disarm
| LockDoor (serial_no : string)
| UnlockDoor (serial_no : string)
| PlugOn (plug_id : string)
| PlugOff (plug_id : string).

Definition lock_payload (a : api) (serial_no : string) : json :=
  JObject [("LockSerial", JString serial_no);
           ("PanelCode", JString (panel_code a));
           ("PanelId", JString (panel_id a));
           ("SerialNo", JString serial_no)].

Definition plug_payload (a : api) (plug_id : string) : json :=
  JObject [("PanelId", JString (panel_id a)); ("DeviceId", JString plug_id)].

Definition action_payload (a : api) (act : action) : json :=
  match act with
  | Arm mode =>
      JObject [("ArmCode", JString (panel_code a));
               ("PanelId", JString (panel_id a));
               ("ArmType", JString mode)]
  | Disarm =>
      JObject [("DisarmCode", JString (panel_code a));
               ("PanelId", JString (panel_id a))]
  | LockDoor serial_no => lock_payload a serial_no
  | UnlockDoor serial_no => lock_payload a serial_no
  | PlugOn plug_id => plug_payload a plug_id
  | PlugOff plug_id => plug_payload a plug_id
  end.

Definition action_target (a : api) (act : action) : option string :=
  match act with
  | Arm _ => snd <$> action_endpoints a !! "Arm"
  | Disarm => snd <$> action_endpoints a !! "Disarm"
  | LockDoor _ => snd <$> action_endpoints a !! "Lock"
  | UnlockDoor _ => snd <$> action_endpoints a !! "Unlock"
  | PlugOn _ => Some (API_URL ++ "/api/Panel/TurnOnSmartplug")
  | PlugOff _ => Some (API_URL ++ "/api/Panel/TurnOffSmartplug")
  end.

Definition perform (net : nat → request → res response) (act : action) : M bool :=
  match act with
  | Arm mode => arm_system net mode
  | Disarm => disarm_system net
  | LockDoor serial_no => lock_door net serial_no
  | UnlockDoor serial_no => unlock_door net serial_no
  | PlugOn plug_id => turn_on_smartplug net plug_id
  | PlugOff plug_id => turn_off_smartplug net plug_id
  end.

(** Every coroutine a caller can start on the instance, and the world it
    leaves behind (whether it returns or raises). *)
Inductive call : Type :=
| CLogin
| CLogout
| CClose
| CRetrieveAllData
| CGetLockStatus
| CAction (act : action)
| CCameraImage (serial_no : string)
| CGet (url : string)
| CPost (url : string) (payload : json).

Definition run (net : nat → request → res response) (py_str : json → string)
           (c : call) (w : world) : world :=
  match c with
  | CLogin => snd (login net py_str w)
  | CLogout => snd (logout net w)
  | CClose => snd (close w)
  | CRetrieveAllData => snd (retrieve_all_data net w)
  | CGetLockStatus => snd (get_lock_status net w)
  | CAction act => snd (perform net act w)
  | CCameraImage serial_no => snd (get_camera_image net serial_no w)
  | CGet url => snd (_get net url w)
  | CPost url payload => snd (_post net url payload w)
  end.

(** Worlds that arise from the constructor by calls on the instance. *)
Inductive reachable (net : nat → request → res response) (py_str : json → string)
          (data_cat : string → list (string * (string * string)))
          (action_cat : gmap string (string * string)) : world → Prop :=
| reachable_new e p pid pc :
    reachable net py_str data_cat action_cat (new_world data_cat action_cat e p pid pc)
| reachable_call w c :
    reachable net py_str data_cat action_cat w →
    reachable net py_str data_cat action_cat (run net py_str c w).

(** The header set is the one derived from the stored token. *)
Definition headers_follow_token (py_str : json → string) (a : api) : Prop :=
  headers a = bearer_headers (py_str (access_token a)).

(** ** Concrete services and sessions used by the examples *)

(** Python's [str()] on the values the examples format: a string is its
    own text and [None] prints as ["None"]. *)
Definition str_of (v : json) : string :=
  match v with
  | JString s => s
  | _ => "None"
  end.

Definition json_response (v : json) : response :=
  mk_response 200 (Some "application/json; charset=utf-8") (Ret v) (Ret "").

Definition error_response (code : Z) : response :=
  mk_response code (Some "text/html") (Raise (PyError "JSONDecodeError"))
    (Ret "<html>error</html>").

Definition token_body (t : string) : json :=
  JObject [("AuthorizationToken", JString t)].

Definition demo_catalog (pid : string) : list (string * (string * string)) :=
  [("Logs", ("GET", API_URL ++ "/api/panel/GetLogs?panelId=" ++ pid));
   ("Temperatures", ("POST", API_URL ++ "/api/v2/housecheck/temperatures"));
   ("Legacy", ("PUT", API_URL ++ "/api/legacy"))].

Definition demo_actions : gmap string (string * string) :=
  <["Arm" := ("POST", API_URL ++ "/api/Panel/Arm")]>
    (<["Disarm" := ("POST", API_URL ++ "/api/Panel/Disarm")]>
       (<["Lock" := ("POST", API_URL ++ "/api/Panel/Lock")]>
          (<["Unlock" := ("POST", API_URL ++ "/api/Panel/Unlock")]> ∅))).

Definition demo_new : world :=
  new_world demo_catalog demo_actions "user@example.org" "secret" "42" "1234".

(** A service that issues the token ["t1"] at the first request and
    answers every later request with [later]. *)
Definition net_then (later : res response) : nat → request → res response :=
  fun n _ => match n with
             | O => Ret (json_response (token_body "t1"))
             | S _ => later
             end.

(** A service that answers every request with [answer]. *)
Definition net_always (answer : res response) : nat → request → res response :=
  fun _ _ => answer.

(** The demo session after a successful login against [net_then later]. *)
Definition demo_logged_in (later : res response) : world :=
  snd (login (net_then later) str_of demo_new).

(** A computation that leaves the instance as it found it, however it
    ends. *)
Definition keeps_self {A} (m : M A) : Prop :=
  ∀ w, self (snd (m w)) = self w.

(** The steps of [login] on the world: the session it uses (the one held,
    or a new one), the world once its request has gone out, and the
    exception an [except] clause turns a failure into. *)
Definition update_self (f : api → api) (w : world) : world :=
  mk_world (f (self w)) (clock w) (opened w) (trace w).

Definition login_handle (w : world) : handle :=
  default (opened w) (session (self w)).

Definition ensure_session (w : world) : world :=
  match session (self w) with
  | Some _ => w
  | None => snd (open_session w)
  end.

Definition login_sent (w : world) : world :=
  sent (login_handle w) (login_request (self w)) (ensure_session w).

Definition login_exn (e : exn) : exn :=
  match e with
  | TimeoutError => AuthenticationError "Timeout during login"
  | ClientError => AuthenticationError "Client error during login"
  | _ => e
  end.

(** The world after the session [h] was closed and forgotten. *)
Definition released (h : handle) (w : world) : world :=
  mk_world (set_session None (self w)) (clock w) (opened w)
           (trace w ++ [EClose h]).

(** The service of the scenarios: the token ["t1"] at login, then the
    answer [served] whatever is asked. *)
Definition demo_net (served : response) : nat → request → res response :=
  net_then (Ret served).

Definition demo_session (served : response) : world :=
  demo_logged_in (Ret served).

(** The snapshot and the world [retrieve_all_data] ends with in a
    scenario ([∅] standing in where it raises). *)
Definition demo_snapshot (served : response) : gmap string json :=
  match fst (retrieve_all_data (demo_net served) (demo_session served)) with
  | Ret snap => snap
  | Raise _ => ∅
  end.

Definition demo_after_retrieve (served : response) : world :=
  snd (retrieve_all_data (demo_net served) (demo_session served)).

Definition logs_entry : string * (string * string) :=
  ("Logs", ("GET", API_URL ++ "/api/panel/GetLogs?panelId=42")).

Definition temperatures_url : string :=
  API_URL ++ "/api/v2/housecheck/temperatures".

Definition legacy_entry : string * (string * string) :=
  ("Legacy", ("PUT", API_URL ++ "/api/legacy")).

Definition temperatures : json :=
  JArray [JObject [("Label", JString "Hall"); ("Temprature", JString "21")]].

(** ** Vocabulary of the further properties *)

(** The exception a run ended with, if it raised. *)
Definition raised {A} (r : res A * world) : option exn :=
  match fst r with
  | Raise e => Some e
  | Ret _ => None
  end.

Definition call_raised (net : nat → request → res response)
           (py_str : json → string) (c : call) (w : world) : option exn :=
  match c with
  | CLogin => raised (login net py_str w)
  | CLogout => raised (logout net w)
  | CClose => raised (close w)
  | CRetrieveAllData => raised (retrieve_all_data net w)
  | CGetLockStatus => raised (get_lock_status net w)
  | CAction act => raised (perform net act w)
  | CCameraImage serial_no => raised (get_camera_image net serial_no w)
  | CGet url => raised (_get net url w)
  | CPost url payload => raised (_post net url payload w)
  end.

(** A computation from which neither [asyncio.TimeoutError] nor
    [aiohttp.ClientError] ever escapes. *)
Definition never_absorbed {A} (m : M A) : Prop :=
  ∀ w e, fst (m w) = Raise e → absorbed e = false.

(** The requests the loop of [retrieve_all_data] makes for a list of
    catalog entries, in the order of the entries: one per GET or POST
    entry, none for an entry with another method. *)
Fixpoint entry_requests (a : api) (entries : list (string * (string * string)))
  : list request :=
  match entries with
  | [] => []
  | (_, (method, url)) :: rest =>
      if String.eqb method "GET" then
        get_request a url :: entry_requests a rest
      else if String.eqb method "POST" then
        post_request a url (panel_payload a) :: entry_requests a rest
      else entry_requests a rest
  end.

(** All the requests of one [retrieve_all_data]: those of the catalog,
    then the lock-status GET. *)
Definition retrieve_requests (a : api) : list request :=
  (entry_requests a (data_endpoints a)
   ++ [get_request a (lock_status_url a)])%list.

(** The connection protocol, read off a trace: at most one connection is
    open at a time, a request goes through the open connection, and only
    the open connection is closed. [conn_run live tr] is the connection
    open after the events [tr], starting with [live] open, or [None] when
    an event breaks the protocol. *)
Definition conn_step (live : option handle) (ev : event) : option (option handle) :=
  match ev, live with
  | EOpen h, None => Some (Some h)
  | EOpen _, Some _ => None
  | ESend h _, Some h' => if Nat.eqb h h' then Some live else None
  | ESend _ _, None => None
  | EClose h, Some h' => if Nat.eqb h h' then Some None else None
  | EClose _, None => None
  end.

Fixpoint conn_run (live : option handle) (tr : list event) : option (option handle) :=
  match tr with
  | [] => Some live
  | ev :: rest =>
      match conn_step live ev with
      | Some live' => conn_run live' rest
      | None => None
      end
  end.

(** A computation whose events continue the protocol from the connection
    the instance holds to the connection it holds afterwards. *)
Definition follows_protocol {A} (m : M A) : Prop :=
  ∀ w, ∃ evs,
    trace (snd (m w)) = (trace w ++ evs)%list
    ∧ conn_run (session (self w)) evs = Some (session (self (snd (m w)))).

(** A service that is down: whatever is asked, the answer is 503. *)
Definition net_down : nat → request → res response :=
  net_always (Ret (error_response 503)).

(** The demo instance after a [login] that the service refused. *)
Definition demo_refused : world :=
  snd (login net_down str_of demo_new).

(** An instance built with an empty action catalog. *)
Definition demo_bare : world :=
  new_world demo_catalog ∅ "user@example.org" "secret" "42" "1234".

(** A 200 answer that announces JSON and whose body does not decode. *)
Definition undecodable : response :=
  mk_response 200 (Some "application/json") (Raise (PyError "JSONDecodeError"))
    (Ret "<<<").

(** An answer with status [code], served as [text/html], whose body
    cannot be decoded as text: [response.text()] raises. *)
Definition garbled (code : Z) : response :=
  mk_response code (Some "text/html") (Raise (PyError "JSONDecodeError"))
    (Raise (PyError "UnicodeDecodeError")).

(** * Properties *)

Create HintDb frame.

Section Properties.

Variable net : nat → request → res response.
Variable py_str : json → string.
Variable data_cat : string → list (string * (string * string)).
Variable action_cat : gmap string (string * string).

(** ** The Request Executor *)

Lemma read_response_run (r : response) (w : world) :
  read_response r w = (exchange (Ret r), w).
Proof.
  unfold read_response, exchange, is_json, bind, lift, ret.
  destruct (status r =? 200); simpl; [|destruct (text_ r); reflexivity].
  destruct (contains _ _); [reflexivity|destruct (text_ r); reflexivity].
Qed.

Lemma _get_run (url : string) (w : world) :
  _get net url w =
  match session (self w) with
  | None => (Raise (PyError "AttributeError"), w)
  | Some h => (settle (net (clock w) (get_request (self w) url)),
               sent h (get_request (self w) url) w)
  end.
Proof.
  unfold _get, try_except, bind, get_self, session_request, settle.
  fold (get_request (self w) url).
  destruct (session (self w)) as [h|]; [|reflexivity].
  destruct (net (clock w) (get_request (self w) url)) as [r|e].
  - rewrite read_response_run.
    destruct (exchange (Ret r)) as [v|e]; [reflexivity|].
    destruct e; reflexivity.
  - destruct e; reflexivity.
Qed.

Lemma _post_run (url : string) (payload : json) (w : world) :
  _post net url payload w =
  match session (self w) with
  | None => (Raise (PyError "AttributeError"), w)
  | Some h => (settle (net (clock w) (post_request (self w) url payload)),
               sent h (post_request (self w) url payload) w)
  end.
Proof.
  unfold _post, try_except, bind, get_self, session_request, settle.
  fold (post_request (self w) url payload).
  destruct (session (self w)) as [h|]; [|reflexivity].
  destruct (net (clock w) (post_request (self w) url payload)) as [r|e].
  - rewrite read_response_run.
    destruct (exchange (Ret r)) as [v|e]; [reflexivity|].
    destruct e; reflexivity.
  - destruct e; reflexivity.
Qed.

Lemma outcome_settle (answer : res response) (v : json) :
  outcome answer v → settle answer = Ret v.
Proof.
  unfold settle.
  destruct 1 as [r v Hs Hj Hv|r t Hs Ht|r t Hs Hj Ht| | |r e He Ha]; simpl.
  - rewrite Hs, Hj, Hv. reflexivity.
  - apply Z.eqb_neq in Hs. rewrite Hs, Ht. reflexivity.
  - rewrite Hj, Ht, andb_false_r. reflexivity.
  - reflexivity.
  - reflexivity.
  - simpl in He. rewrite He, Ha. reflexivity.
Qed.

(** The executor never fails on a specified outcome: a result exists. *)
Lemma settle_absorbs (answer : res response) :
  (∀ e, exchange answer = Raise e → absorbed e = true) →
  ∃ v, settle answer = Ret v.
Proof.
  unfold settle. intros H.
  destruct (exchange answer) as [v|e]; [eauto|].
  rewrite (H e eq_refl). eauto.
Qed.

(** The specified outcomes are all the answers on which the executor
    returns. *)
Lemma settle_outcome (answer : res response) (v : json) :
  settle answer = Ret v → outcome answer v.
Proof.
  unfold settle. destruct (exchange answer) as [v'|e] eqn:Hex.
  - intros [= <-]. destruct answer as [r|e]; [|discriminate].
    cbn [exchange] in Hex.
    destruct (status r =? 200) eqn:Hs; cbn [andb] in Hex.
    + apply Z.eqb_eq in Hs. destruct (is_json r) eqn:Hj.
      * apply outcome_json; assumption.
      * destruct (text_ r) as [t|e] eqn:Ht; [|discriminate].
        injection Hex as <-. apply (outcome_not_json r t); assumption.
    + apply Z.eqb_neq in Hs.
      destruct (text_ r) as [t|e] eqn:Ht; [|discriminate].
      injection Hex as <-. apply (outcome_bad_status r t); assumption.
  - destruct (absorbed e) eqn:Ha; [|discriminate]. intros [= <-].
    destruct answer as [r|e'].
    + apply (outcome_late r e); assumption.
    + cbn [exchange] in Hex. injection Hex as ->.
      destruct e; try discriminate; constructor.
Qed.

(** C1 (amended). For every call of [_get] or [_post] on a session that
    holds a connection: a 200 response with a JSON content type whose
    body decodes gives the decoded value; a response with another
    status or another content type whose body can be read as text, a
    timeout and a transport error (when the request is sent or while the
    response is read) give [None]; none of these raises. The request
    that went out is on the trace and the instance is as before. These
    outcomes are all the answers on which the executor returns. *)
Theorem C1_request_executor (w : world) (h : handle) (url : string)
        (payload : json) :
  session (self w) = Some h →
  (∀ v, outcome (net (clock w) (get_request (self w) url)) v →
        _get net url w = (Ret v, sent h (get_request (self w) url) w))
  ∧
  (∀ v, outcome (net (clock w) (post_request (self w) url payload)) v →
        _post net url payload w =
        (Ret v, sent h (post_request (self w) url payload) w))
  ∧
  (∀ v w', _get net url w = (Ret v, w') →
           outcome (net (clock w) (get_request (self w) url)) v)
  ∧
  (∀ v w', _post net url payload w = (Ret v, w') →
           outcome (net (clock w) (post_request (self w) url payload)) v).
Proof.
  intros Hs. split; [|split; [|split]].
  - intros v Hv. rewrite _get_run, Hs, (outcome_settle _ _ Hv). reflexivity.
  - intros v Hv. rewrite _post_run, Hs, (outcome_settle _ _ Hv). reflexivity.
  - intros v w'. rewrite _get_run, Hs. intros [= Hv _].
    apply settle_outcome. exact Hv.
  - intros v w'. rewrite _post_run, Hs. intros [= Hv _].
    apply settle_outcome. exact Hv.
Qed.

(** ** Frame: what the requests leave alone *)

Lemma keeps_self_ret {A} (a : A) : keeps_self (ret a).
Proof. intros w. reflexivity. Qed.

Lemma keeps_self_raise {A} (e : exn) : keeps_self (raise (A := A) e).
Proof. intros w. reflexivity. Qed.

Lemma keeps_self_lift {A} (r : res A) : keeps_self (lift r).
Proof. intros w. reflexivity. Qed.

Lemma keeps_self_get_self : keeps_self get_self.
Proof. intros w. reflexivity. Qed.

Lemma keeps_self_bind {A B} (m : M A) (k : A → M B) :
  keeps_self m → (∀ a, keeps_self (k a)) → keeps_self (bind m k).
Proof.
  intros Hm Hk w. unfold bind. specialize (Hm w).
  destruct (m w) as [[a|e] w1]; simpl in *; [|exact Hm].
  rewrite Hk. exact Hm.
Qed.

Lemma keeps_self__get (url : string) : keeps_self (_get net url).
Proof.
  intros w. rewrite _get_run. destruct (session (self w)); reflexivity.
Qed.

Lemma keeps_self__post (url : string) (payload : json) :
  keeps_self (_post net url payload).
Proof.
  intros w. rewrite _post_run. destruct (session (self w)); reflexivity.
Qed.

Lemma keeps_self_action_url (key : string) : keeps_self (action_url key).
Proof.
  intros w. unfold action_url, bind, get_self.
  destruct (action_endpoints (self w) !! key) as [[m u]|]; reflexivity.
Qed.

#[local] Hint Resolve keeps_self_ret keeps_self_raise keeps_self_lift
     keeps_self_get_self keeps_self__get keeps_self__post
     keeps_self_action_url : frame.

Ltac frame_step :=
  match goal with
  | |- keeps_self (bind _ _) => apply keeps_self_bind; [|intros ?]
  | |- keeps_self (if ?b then _ else _) => destruct b
  | |- keeps_self _ => solve [auto with frame]
  end.

Lemma keeps_self_get_lock_status : keeps_self (get_lock_status net).
Proof. unfold get_lock_status. repeat frame_step. Qed.

Lemma keeps_self_fetch_entries entries data :
  keeps_self (fetch_entries net entries data).
Proof.
  revert data. induction entries as [|[key [method url]] rest IH]; intros data.
  - apply keeps_self_ret.
  - simpl. destruct (String.eqb method "GET"); [|destruct (String.eqb method "POST")].
    + apply keeps_self_bind; [auto with frame|intros r; apply IH].
    + apply keeps_self_bind; [auto with frame|intros s].
      apply keeps_self_bind; [auto with frame|intros r; apply IH].
    + apply IH.
Qed.

Lemma keeps_self_retrieve_all_data : keeps_self (retrieve_all_data net).
Proof.
  unfold retrieve_all_data.
  apply keeps_self_bind; [auto with frame|intros s].
  apply keeps_self_bind; [apply keeps_self_fetch_entries|intros d].
  apply keeps_self_bind; [apply keeps_self_get_lock_status|intros l].
  apply keeps_self_ret.
Qed.

Lemma keeps_self_perform (act : action) : keeps_self (perform net act).
Proof.
  destruct act; simpl;
    unfold arm_system, disarm_system, lock_door, unlock_door,
           turn_on_smartplug, turn_off_smartplug;
    repeat frame_step.
Qed.

Lemma keeps_self_get_camera_image (serial_no : string) :
  keeps_self (get_camera_image net serial_no).
Proof. unfold get_camera_image. repeat frame_step. Qed.

(** C10. Data retrieval, the six actions and the camera call leave the
    instance (credentials, token, header set, connection resource and
    catalogs) exactly as it was, whether they return or raise. *)
Theorem C10_frame (w : world) :
  self (snd (retrieve_all_data net w)) = self w
  ∧ self (snd (get_lock_status net w)) = self w
  ∧ (∀ mode, self (snd (arm_system net mode w)) = self w)
  ∧ self (snd (disarm_system net w)) = self w
  ∧ (∀ serial_no, self (snd (lock_door net serial_no w)) = self w)
  ∧ (∀ serial_no, self (snd (unlock_door net serial_no w)) = self w)
  ∧ (∀ plug_id, self (snd (turn_on_smartplug net plug_id w)) = self w)
  ∧ (∀ plug_id, self (snd (turn_off_smartplug net plug_id w)) = self w)
  ∧ (∀ serial_no, self (snd (get_camera_image net serial_no w)) = self w).
Proof.
  repeat split; intros.
  - apply keeps_self_retrieve_all_data.
  - apply keeps_self_get_lock_status.
  - apply (keeps_self_perform (Arm mode)).
  - apply (keeps_self_perform Disarm).
  - apply (keeps_self_perform (LockDoor serial_no)).
  - apply (keeps_self_perform (UnlockDoor serial_no)).
  - apply (keeps_self_perform (PlugOn plug_id)).
  - apply (keeps_self_perform (PlugOff plug_id)).
  - apply keeps_self_get_camera_image.
Qed.

(** ** The Data Aggregator *)

Lemma get_lock_status_run (w : world) :
  get_lock_status net w =
  match _get net (lock_status_url (self w)) w with
  | (Ret r, w') => (Ret (if truthy r then r else JArray []), w')
  | (Raise e, w') => (Raise e, w')
  end.
Proof.
  unfold get_lock_status, bind, get_self, ret.
  fold (lock_status_url (self w)).
  destruct (_get net (lock_status_url (self w)) w) as [[r|e] w']; [|reflexivity].
  destruct (truthy r); reflexivity.
Qed.

Lemma fetch_entries_app pre post data (w : world) :
  fetch_entries net (pre ++ post) data w =
  match fetch_entries net pre data w with
  | (Ret d, w1) => fetch_entries net post d w1
  | (Raise e, w1) => (Raise e, w1)
  end.
Proof.
  revert data w.
  induction pre as [|[key [method url]] pre IH]; intros data w; [reflexivity|].
  cbn [app fetch_entries].
  destruct (String.eqb method "GET"); [|destruct (String.eqb method "POST")].
  - unfold bind. destruct (_get net url w) as [[r|e] w1]; [apply IH|reflexivity].
  - unfold bind, get_self.
    destruct (_post net url _ w) as [[r|e] w1]; [apply IH|reflexivity].
  - apply IH.
Qed.

(** A key that is not among the entries walked keeps its binding. *)
Lemma fetch_entries_other_key entries (key : string) :
  key ∉ (fst <$> entries) →
  ∀ data (w : world) d w',
    fetch_entries net entries data w = (Ret d, w') →
    d !! key = data !! key.
Proof.
  induction entries as [|[k [method url]] rest IH]; intros Hk data w d w' Hrun.
  - inversion Hrun. reflexivity.
  - rewrite fmap_cons, not_elem_of_cons in Hk. destruct Hk as [Hne Hk].
    cbn [fst] in Hne. cbn [fetch_entries] in Hrun.
    destruct (String.eqb method "GET"); [|destruct (String.eqb method "POST")].
    + unfold bind in Hrun.
      destruct (_get net url w) as [[r|e] w1]; [|discriminate].
      rewrite (IH Hk _ _ _ _ Hrun).
      destruct (truthy r); [apply lookup_insert_ne; congruence|reflexivity].
    + unfold bind, get_self in Hrun.
      destruct (_post net url _ w) as [[r|e] w1]; [|discriminate].
      rewrite (IH Hk _ _ _ _ Hrun).
      destruct (truthy r); [apply lookup_insert_ne; congruence|reflexivity].
    + exact (IH Hk _ _ _ _ Hrun).
Qed.

Lemma _get_returns (url : string) (w w' : world) (r : json) :
  _get net url w = (Ret r, w') →
  ∃ h, session (self w) = Some h ∧ w' = sent h (get_request (self w) url) w.
Proof.
  rewrite _get_run. destruct (session (self w)) as [h|]; [|discriminate].
  intros H. inversion H. eauto.
Qed.

Lemma _post_returns (url : string) (payload : json) (w w' : world) (r : json) :
  _post net url payload w = (Ret r, w') →
  ∃ h, session (self w) = Some h
       ∧ w' = sent h (post_request (self w) url payload) w.
Proof.
  rewrite _post_run. destruct (session (self w)) as [h|]; [|discriminate].
  intros H. inversion H. eauto.
Qed.

Lemma retrieve_all_data_inv (w w' : world) (snap : gmap string json) :
  retrieve_all_data net w = (Ret snap, w') →
  ∃ d w1 r,
    fetch_entries net (data_endpoints (self w)) ∅ w = (Ret d, w1)
    ∧ self w1 = self w
    ∧ _get net (lock_status_url (self w)) w1 = (Ret r, w')
    ∧ snap = <["Lock Status" := if truthy r then r else JArray []]> d.
Proof.
  unfold retrieve_all_data, bind, get_self, ret.
  pose proof (keeps_self_fetch_entries (data_endpoints (self w)) ∅ w) as Hself.
  destruct (fetch_entries net (data_endpoints (self w)) ∅ w) as [[d|e] w1];
    [|discriminate].
  cbn [snd] in Hself. rewrite get_lock_status_run, Hself.
  destruct (_get net (lock_status_url (self w)) w1) as [[r|e] w2] eqn:Hget;
    [|discriminate].
  intros H. inversion H. subst. exists d, w1, r. auto.
Qed.

(** C3 (amended). Take any entry [(key, (method, url))] of the data
    catalog whose key is not the lock-status key, and a call of
    [retrieve_all_data] that returns. When the entry is reached, a GET
    entry makes the executor send a GET for [url], a POST entry a POST
    with payload [{"PanelId": panel_id}], and the key is in the snapshot,
    bound to the executor's result, exactly when that result is truthy
    (not [None], and not empty, zero or false either); otherwise the key
    is left out. An entry with another method sends nothing, changes
    nothing and leaves the key out. *)
Theorem C3_snapshot_entries (w w' : world) (snap : gmap string json)
        (pre post : list (string * (string * string)))
        (key method url : string) :
  data_endpoints (self w) = (pre ++ (key, (method, url)) :: post)%list →
  NoDup (fst <$> data_endpoints (self w)) →
  key ≠ "Lock Status" →
  retrieve_all_data net w = (Ret snap, w') →
  ∃ d1 w1,
    fetch_entries net pre ∅ w = (Ret d1, w1) ∧
    if String.eqb method "GET" then
      ∃ h r, session (self w) = Some h
             ∧ _get net url w1 = (Ret r, sent h (get_request (self w) url) w1)
             ∧ snap !! key = (if truthy r then Some r else None)
    else if String.eqb method "POST" then
      ∃ h r, session (self w) = Some h
             ∧ _post net url (panel_payload (self w)) w1 =
               (Ret r, sent h (post_request (self w) url (panel_payload (self w))) w1)
             ∧ snap !! key = (if truthy r then Some r else None)
    else
      fetch_entries net [(key, (method, url))] d1 w1 = (Ret d1, w1)
      ∧ snap !! key = None.
Proof.
  intros Hcat Hnodup Hkey Hrun.
  destruct (retrieve_all_data_inv _ _ _ Hrun) as (d & w2 & ls & Hfetch & _ & _ & ->).
  rewrite lookup_insert_ne by congruence.
  rewrite Hcat in Hfetch, Hnodup. rewrite fetch_entries_app in Hfetch.
  rewrite fmap_app, fmap_cons in Hnodup. cbn [fst] in Hnodup.
  apply NoDup_app in Hnodup. destruct Hnodup as (_ & Hpre & Hpost).
  apply NoDup_cons in Hpost. destruct Hpost as [Hpost _].
  assert (Hnotpre : key ∉ fst <$> pre).
  { intros Hin. apply (Hpre _ Hin). left. }
  pose proof (keeps_self_fetch_entries pre ∅ w) as Hself.
  destruct (fetch_entries net pre ∅ w) as [[d1|e] w1] eqn:Hpref; [|discriminate].
  cbn [snd] in Hself.
  pose proof (fetch_entries_other_key _ _ Hnotpre _ _ _ _ Hpref) as Hd1.
  rewrite lookup_empty in Hd1.
  exists d1, w1. split; [reflexivity|].
  cbn [fetch_entries] in Hfetch |- *.
  destruct (String.eqb method "GET"); [|destruct (String.eqb method "POST")].
  - unfold bind in Hfetch.
    destruct (_get net url w1) as [[r|e] w3] eqn:Hget; [|discriminate].
    destruct (_get_returns _ _ _ _ Hget) as (h & Hs & ->).
    rewrite Hself in Hs. exists h, r. split; [exact Hs|].
    split; [rewrite Hself; reflexivity|].
    rewrite (fetch_entries_other_key _ _ Hpost _ _ _ _ Hfetch).
    destruct (truthy r); [apply lookup_insert_eq|exact Hd1].
  - unfold bind, get_self in Hfetch. fold (panel_payload (self w1)) in Hfetch.
    destruct (_post net url (panel_payload (self w1)) w1) as [[r|e] w3] eqn:Hpost';
      [|discriminate].
    destruct (_post_returns _ _ _ _ _ Hpost') as (h & Hs & ->).
    rewrite Hself in Hs, Hpost'. exists h, r.
    split; [exact Hs|]. split; [exact Hpost'|].
    rewrite (fetch_entries_other_key _ _ Hpost _ _ _ _ Hfetch).
    destruct (truthy r); [apply lookup_insert_eq|exact Hd1].
  - split; [reflexivity|].
    rewrite (fetch_entries_other_key _ _ Hpost _ _ _ _ Hfetch). exact Hd1.
Qed.

(** On a session that holds a connection, against a service that only
    gives specified outcomes, the loop over the catalog returns. *)
Lemma fetch_entries_returns entries :
  (∀ n rq, ∃ v, outcome (net n rq) v) →
  ∀ data (w : world) h,
    session (self w) = Some h →
    ∃ d w', fetch_entries net entries data w = (Ret d, w') ∧ self w' = self w.
Proof.
  intros Hnet.
  induction entries as [|[key [method url]] rest IH]; intros data w h Hs.
  - exists data, w. split; reflexivity.
  - cbn [fetch_entries].
    destruct (String.eqb method "GET"); [|destruct (String.eqb method "POST")].
    + unfold bind. rewrite _get_run, Hs.
      destruct (Hnet (clock w) (get_request (self w) url)) as [v Hv].
      rewrite (outcome_settle _ _ Hv).
      apply (IH _ (sent h (get_request (self w) url) w) h). exact Hs.
    + unfold bind, get_self. rewrite _post_run, Hs.
      destruct (Hnet (clock w)
                  (post_request (self w) url
                     (JObject [("PanelId", JString (panel_id (self w)))])))
        as [v Hv].
      rewrite (outcome_settle _ _ Hv).
      apply (IH _ (sent h
                     (post_request (self w) url
                        (JObject [("PanelId", JString (panel_id (self w)))])) w) h).
      exact Hs.
    + apply (IH _ w h Hs).
Qed.

(** C4. Whenever [retrieve_all_data] returns a snapshot, the walk over
    the catalog has finished, the last request was the GET for
    [/api/panel/GetLockStatus?panelId=<id>], and the snapshot binds
    ["Lock Status"] to the executor's result when that result is truthy
    and to the empty list otherwise, in particular when the fetch failed
    and gave [None]. On a session that holds a connection, against a
    service that only gives specified outcomes, [retrieve_all_data] does
    return. *)
Theorem C4_lock_status_key (w : world) :
  (∀ snap w',
     retrieve_all_data net w = (Ret snap, w') →
     ∃ d w1 h r,
       fetch_entries net (data_endpoints (self w)) ∅ w = (Ret d, w1)
       ∧ session (self w) = Some h
       ∧ _get net (lock_status_url (self w)) w1 = (Ret r, w')
       ∧ w' = sent h (get_request (self w) (lock_status_url (self w))) w1
       ∧ snap !! "Lock Status" = Some (if truthy r then r else JArray [])
       ∧ (r = JNull → snap !! "Lock Status" = Some (JArray [])))
  ∧
  (∀ h, session (self w) = Some h →
        (∀ n rq, ∃ v, outcome (net n rq) v) →
        ∃ snap w', retrieve_all_data net w = (Ret snap, w')).
Proof.
  split.
  - intros snap w' Hrun.
    destruct (retrieve_all_data_inv _ _ _ Hrun) as (d & w1 & r & Hf & Hself & Hget & ->).
    destruct (_get_returns _ _ _ _ Hget) as (h & Hs & Hw').
    rewrite Hself in Hs, Hw'.
    exists d, w1, h, r. repeat split; try assumption.
    + apply lookup_insert_eq.
    + intros ->. apply lookup_insert_eq.
  - intros h Hs Hnet.
    destruct (fetch_entries_returns (data_endpoints (self w)) Hnet ∅ w h Hs)
      as (d & w1 & Hf & Hself).
    unfold retrieve_all_data, bind, get_self, ret. rewrite Hf.
    rewrite get_lock_status_run, _get_run, Hself, Hs.
    destruct (Hnet (clock w1) (get_request (self w) (lock_status_url (self w))))
      as [v Hv].
    rewrite (outcome_settle _ _ Hv). eauto.
Qed.

(** ** The Session Manager *)

Lemma login_run (w : world) :
  login net py_str w =
  match net (clock w) (login_request (self w)) with
  | Raise e => (Raise (login_exn e), login_sent w)
  | Ret r =>
      if status r =? 200 then
        match json_ r with
        | Raise e => (Raise (login_exn e), login_sent w)
        | Ret data =>
            match py_get data "AuthorizationToken" with
            | Raise e => (Raise (login_exn e), login_sent w)
            | Ret token =>
                if truthy token then
                  (Ret tt,
                   update_self (set_headers (bearer_headers (py_str token)))
                     (update_self (set_access_token token) (login_sent w)))
                else
                  (Raise (AuthenticationError "Invalid credentials"),
                   update_self (set_access_token token) (login_sent w))
            end
        end
      else (Raise (AuthenticationError "Invalid credentials"), login_sent w)
  end.
Proof.
  unfold login, login_sent, login_handle, ensure_session, login_request.
  unfold bind at 1. unfold get_self at 1. cbv beta iota.
  destruct (session (self w)) as [h|] eqn:Hs;
    unfold bind at 1; cbv beta iota;
    unfold try_except, bind, session_request, open_session, ret, raise, lift,
           with_self, update_self, sent;
    cbn [self session set_session clock opened trace snd fst default];
    try rewrite Hs;
    (destruct (net (clock w) _) as [r|e]; [|destruct e; reflexivity]);
    (destruct (status r =? 200); [|reflexivity]); cbn [negb];
    (destruct (json_ r) as [data|e]; [|destruct e; reflexivity]);
    (destruct (py_get data "AuthorizationToken") as [token|e];
     [|destruct e; reflexivity]);
    destruct (truthy token); reflexivity.
Qed.

Lemma login_sent_token (w : world) :
  access_token (self (login_sent w)) = access_token (self w)
  ∧ headers (self (login_sent w)) = headers (self w).
Proof.
  unfold login_sent, ensure_session.
  destruct (session (self w)); split; reflexivity.
Qed.

Lemma login_sent_session (w : world) :
  session (self (login_sent w)) = Some (login_handle w).
Proof.
  unfold login_sent, ensure_session, login_handle.
  destruct (session (self w)) eqn:Hs; [exact Hs|reflexivity].
Qed.

(** C2 (amended). [login] raises [AuthenticationError], with the
    message of the failure, when the response status is not 200, when
    the decoded body is an object without an [AuthorizationToken] field,
    and when a timeout or a transport error strikes while the request
    is sent or the body is decoded. On a bad status, a timeout and a
    transport error the stored token and header set are what they were
    before the call (so a token that was unset stays unset); on a
    missing field the stored token is [None]. *)
Theorem C2_login_failures (w : world) :
  (∀ r, net (clock w) (login_request (self w)) = Ret r →
        status r ≠ 200 →
        fst (login net py_str w) = Raise (AuthenticationError "Invalid credentials")
        ∧ access_token (self (snd (login net py_str w))) = access_token (self w)
        ∧ headers (self (snd (login net py_str w))) = headers (self w))
  ∧
  (∀ r fields, net (clock w) (login_request (self w)) = Ret r →
        status r = 200 →
        json_ r = Ret (JObject fields) →
        assoc "AuthorizationToken" fields = None →
        fst (login net py_str w) = Raise (AuthenticationError "Invalid credentials")
        ∧ access_token (self (snd (login net py_str w))) = JNull
        ∧ headers (self (snd (login net py_str w))) = headers (self w))
  ∧
  (net (clock w) (login_request (self w)) = Raise TimeoutError
   ∨ (∃ r, net (clock w) (login_request (self w)) = Ret r
           ∧ status r = 200 ∧ json_ r = Raise TimeoutError) →
   fst (login net py_str w) = Raise (AuthenticationError "Timeout during login")
   ∧ access_token (self (snd (login net py_str w))) = access_token (self w)
   ∧ headers (self (snd (login net py_str w))) = headers (self w))
  ∧
  (net (clock w) (login_request (self w)) = Raise ClientError
   ∨ (∃ r, net (clock w) (login_request (self w)) = Ret r
           ∧ status r = 200 ∧ json_ r = Raise ClientError) →
   fst (login net py_str w) = Raise (AuthenticationError "Client error during login")
   ∧ access_token (self (snd (login net py_str w))) = access_token (self w)
   ∧ headers (self (snd (login net py_str w))) = headers (self w)).
Proof.
  destruct (login_sent_token w) as [Htok Hhdr].
  rewrite login_run. split; [|split; [|split]].
  - intros r Hnet Hstatus. apply Z.eqb_neq in Hstatus.
    rewrite Hnet, Hstatus. repeat split; assumption.
  - intros r fields Hnet Hstatus Hbody Hfield.
    rewrite Hnet, Hstatus, Hbody. cbn [py_get]. rewrite Hfield.
    repeat split. exact Hhdr.
  - intros [->|(r & -> & -> & ->)]; repeat split; assumption.
  - intros [->|(r & -> & -> & ->)]; repeat split; assumption.
Qed.

Lemma close_run (w : world) :
  close w =
  match session (self w) with
  | Some h => (Ret tt, released h w)
  | None => (Ret tt, w)
  end.
Proof.
  unfold close, bind, get_self. destruct (session (self w)); reflexivity.
Qed.

(** C8. [close] never raises and leaves no connection resource; a
    second [close] right after it, and a [close] on a session that
    holds nothing (one that was never opened, for instance), return
    without doing anything; a held connection is released, once. *)
Theorem C8_close_idempotent (w : world) :
  fst (close w) = Ret tt
  ∧ session (self (snd (close w))) = None
  ∧ close (snd (close w)) = (Ret tt, snd (close w))
  ∧ (session (self w) = None → close w = (Ret tt, w))
  ∧ (∀ e p pid pc,
       close (new_world data_cat action_cat e p pid pc) =
       (Ret tt, new_world data_cat action_cat e p pid pc))
  ∧ (∀ h, session (self w) = Some h → snd (close w) = released h w).
Proof.
  pose proof (close_run w) as Hrun.
  destruct (session (self w)) as [h|] eqn:Hs; rewrite Hrun; cbn [fst snd];
    (split; [reflexivity|]); (split; [try reflexivity; exact Hs|]);
    (split; [rewrite close_run; try rewrite Hs; reflexivity|]);
    (split; [intros; try discriminate; reflexivity|]);
    (split; [intros; apply close_run|]).
  - intros h' [= <-]. reflexivity.
  - intros h' [=].
Qed.

Lemma logout_run (w : world) :
  logout net w =
  match _post net (API_URL ++ "/api/Login/Logout") (JObject []) w with
  | (Ret _, w') => close w'
  | (Raise e, w') => (Raise e, w')
  end.
Proof. reflexivity. Qed.

(** C9 (amended). On a session that holds a connection, whenever the
    logout POST ends in an outcome the executor returns on (a decoded
    success, another status or content type whose body can be read as
    text, a timeout, a transport error), [logout] returns without
    raising, having sent that one POST with the empty payload and then
    released the connection; the executor's result plays no part in
    what it does. *)
Theorem C9_logout_releases (w : world) (h : handle) (v : json) :
  session (self w) = Some h →
  outcome (net (clock w) (logout_request (self w))) v →
  logout net w = (Ret tt, released h (sent h (logout_request (self w)) w))
  ∧ session (self (snd (logout net w))) = None
  ∧ trace (snd (logout net w)) =
    (trace w ++ [ESend h (logout_request (self w)); EClose h])%list.
Proof.
  intros Hs Hv.
  assert (Hrun : logout net w =
                 (Ret tt, released h (sent h (logout_request (self w)) w))).
  { rewrite logout_run, _post_run, Hs.
    fold (logout_request (self w)). rewrite (outcome_settle _ _ Hv).
    rewrite close_run. cbn [sent self]. rewrite Hs. reflexivity. }
  rewrite Hrun. repeat split.
  cbn [snd released sent trace]. rewrite <- app_assoc. reflexivity.
Qed.

Lemma close_keeps_token (w : world) :
  access_token (self (snd (close w))) = access_token (self w)
  ∧ headers (self (snd (close w))) = headers (self w).
Proof. rewrite close_run. destruct (session (self w)); split; reflexivity. Qed.

Lemma logout_keeps_token (w : world) :
  access_token (self (snd (logout net w))) = access_token (self w)
  ∧ headers (self (snd (logout net w))) = headers (self w).
Proof.
  rewrite logout_run.
  pose proof (keeps_self__post (API_URL ++ "/api/Login/Logout") (JObject []) w)
    as Hself.
  destruct (_post net _ _ w) as [[r|e] w']; cbn [snd] in *.
  - destruct (close_keeps_token w') as [Ht Hh]. rewrite Ht, Hh, Hself.
    split; reflexivity.
  - rewrite Hself. split; reflexivity.
Qed.

(** Only [login] writes the token and the header set. *)
Lemma run_keeps_token (c : call) (w : world) :
  c ≠ CLogin →
  access_token (self (run net py_str c w)) = access_token (self w)
  ∧ headers (self (run net py_str c w)) = headers (self w).
Proof.
  intros Hc. destruct c; cbn [run]; try congruence.
  - apply logout_keeps_token.
  - apply close_keeps_token.
  - rewrite keeps_self_retrieve_all_data. split; reflexivity.
  - rewrite keeps_self_get_lock_status. split; reflexivity.
  - rewrite keeps_self_perform. split; reflexivity.
  - rewrite keeps_self_get_camera_image. split; reflexivity.
  - rewrite keeps_self__get. split; reflexivity.
  - rewrite keeps_self__post. split; reflexivity.
Qed.

(** What [login] does to the token and the header set, however it ends:
    nothing, or a falsy token stored next to the old header set, or a
    truthy token stored with the header set derived from it. *)
Lemma login_token_cases (w : world) :
  let a' := self (snd (login net py_str w)) in
  (access_token a' = access_token (self w) ∧ headers a' = headers (self w))
  ∨ truthy (access_token a') = false
  ∨ (truthy (access_token a') = true ∧ headers_follow_token py_str a').
Proof.
  destruct (login_sent_token w) as [Htok Hhdr].
  cbv zeta. rewrite login_run.
  destruct (net (clock w) _) as [r|e]; [|left; split; assumption].
  destruct (status r =? 200); [|left; split; assumption].
  destruct (json_ r) as [data|e]; [|left; split; assumption].
  destruct (py_get data "AuthorizationToken") as [token|e];
    [|left; split; assumption].
  destruct (truthy token) eqn:Ht; right; [right|left].
  - split; [exact Ht|reflexivity].
  - exact Ht.
Qed.

Lemma reachable_headers (w : world) :
  reachable net py_str data_cat action_cat w →
  truthy (access_token (self w)) = true →
  headers_follow_token py_str (self w).
Proof.
  induction 1 as [e p pid pc|w c Hw IH]; [discriminate|].
  destruct c;
    try match goal with
        | |- context [run net py_str ?c w] =>
            destruct (run_keeps_token c w ltac:(discriminate)) as [Ht Hh];
            unfold headers_follow_token in *; rewrite Ht, Hh; exact IH
        end.
  cbn [run]. destruct (login_token_cases w) as [[Ht Hh]|[Hf|[_ Hfollow]]].
  - unfold headers_follow_token in *. rewrite Ht, Hh. exact IH.
  - rewrite Hf. discriminate.
  - intros _. exact Hfollow.
Qed.

Lemma login_success (w : world) :
  fst (login net py_str w) = Ret tt →
  ∃ r data token,
    net (clock w) (login_request (self w)) = Ret r
    ∧ status r = 200
    ∧ json_ r = Ret data
    ∧ py_get data "AuthorizationToken" = Ret token
    ∧ truthy token = true
    ∧ snd (login net py_str w) =
      update_self (set_headers (bearer_headers (py_str token)))
        (update_self (set_access_token token) (login_sent w)).
Proof.
  rewrite login_run.
  destruct (net (clock w) _) as [r|e] eqn:Hnet; [|discriminate].
  destruct (status r =? 200) eqn:Hs; [|discriminate].
  destruct (json_ r) as [data|e] eqn:Hj; [|discriminate].
  destruct (py_get data "AuthorizationToken") as [token|e] eqn:Hg; [|discriminate].
  destruct (truthy token) eqn:Ht; [|discriminate].
  intros _. exists r, data, token. apply Z.eqb_eq in Hs.
  repeat split; assumption.
Qed.

(** C5 (amended). On every session that arises from the constructor by
    calls on the instance, whenever a non-empty token is stored the
    header set is exactly
    [{Authorization: Bearer <token>, Accept: application/json}] for that
    token; no call other than [login] changes the token or the header
    set; and after a [login] that returns, the stored token is the one
    the service just issued, and a [_get] or [_post] made next sends
    exactly the header set derived from it. *)
Theorem C5_headers_follow_token :
  (∀ w, reachable net py_str data_cat action_cat w →
        truthy (access_token (self w)) = true →
        headers (self w) = bearer_headers (py_str (access_token (self w))))
  ∧
  (∀ w c, c ≠ CLogin →
          access_token (self (run net py_str c w)) = access_token (self w)
          ∧ headers (self (run net py_str c w)) = headers (self w))
  ∧
  (∀ w, fst (login net py_str w) = Ret tt →
        ∃ h r data token,
          net (clock w) (login_request (self w)) = Ret r
          ∧ json_ r = Ret data
          ∧ py_get data "AuthorizationToken" = Ret token
          ∧ truthy token = true
          ∧ access_token (self (snd (login net py_str w))) = token
          ∧ headers (self (snd (login net py_str w))) =
            bearer_headers (py_str token)
          ∧ session (self (snd (login net py_str w))) = Some h
          ∧ (∀ url,
               trace (snd (_get net url (snd (login net py_str w)))) =
               (trace (snd (login net py_str w)) ++
                [ESend h (mk_request "GET" url None
                            (bearer_headers (py_str token)))])%list)
          ∧ (∀ url payload,
               trace (snd (_post net url payload (snd (login net py_str w)))) =
               (trace (snd (login net py_str w)) ++
                [ESend h (mk_request "POST" url (Some payload)
                            (bearer_headers (py_str token)))])%list)).
Proof.
  split; [exact reachable_headers|]. split; [intros w c; apply run_keeps_token|].
  intros w Hok.
  destruct (login_success w Hok) as (r & data & token & Hnet & _ & Hj & Hg & Ht & ->).
  pose proof (login_sent_session w) as Hs.
  exists (login_handle w), r, data, token.
  repeat split; try assumption.
  - intros url. rewrite _get_run. cbn [update_self self set_headers set_access_token session].
    rewrite Hs. reflexivity.
  - intros url payload. rewrite _post_run.
    cbn [update_self self set_headers set_access_token session].
    rewrite Hs. reflexivity.
Qed.

(** ** The Action Dispatcher *)

Lemma action_url_run (key : string) (w : world) :
  action_url key w =
  match action_endpoints (self w) !! key with
  | Some (_, url) => (Ret url, w)
  | None => (Raise (PyError "KeyError"), w)
  end.
Proof.
  unfold action_url, bind, get_self.
  destruct (action_endpoints (self w) !! key) as [[m u]|]; reflexivity.
Qed.

Ltac finish_action w :=
  unfold bind, get_self, ret;
  destruct (_post net _ _ w) as [[r|e] w']; [|reflexivity];
  destruct (is_not_None r); reflexivity.

Ltac catalog_action w Hu :=
  unfold bind at 1; rewrite action_url_run;
  destruct (action_endpoints (self w) !! _) as [[m u]|]; [|discriminate];
  cbn in Hu; injection Hu as ->; finish_action w.

Lemma perform_run (act : action) (w : world) (url : string) :
  action_target (self w) act = Some url →
  perform net act w =
  match _post net url (action_payload (self w) act) w with
  | (Ret r, w') => (Ret (is_not_None r), w')
  | (Raise e, w') => (Raise e, w')
  end.
Proof.
  destruct act; cbn [action_target perform action_payload]; intros Hu;
    unfold arm_system, disarm_system, lock_door, unlock_door,
           turn_on_smartplug, turn_off_smartplug, lock_payload, plug_payload.
  - catalog_action w Hu.
  - catalog_action w Hu.
  - catalog_action w Hu.
  - catalog_action w Hu.
  - injection Hu as <-. finish_action w.
  - injection Hu as <-. finish_action w.
Qed.

Lemma is_not_None_spec (v : json) : is_not_None v = true ↔ v ≠ JNull.
Proof. destruct v; simpl; split; congruence. Qed.

(** C6. Each action (arm with a mode, disarm, lock and unlock of a
    serial number, smart plug on and off) makes one call of the
    executor: a POST to the action's URL of the payload the interface
    gives for it, which always carries the panel identifier. Where the
    executor returns a result [r], the action returns [true] exactly
    when [r] is not [None] and [false] when it is; it changes nothing
    the executor did not. On a session that holds a connection, a
    specified outcome with result [v] therefore gives [v is not None],
    with that one POST on the wire. *)
Theorem C6_actions (act : action) (w : world) (url : string) :
  action_target (self w) act = Some url →
  (∀ r w',
     _post net url (action_payload (self w) act) w = (Ret r, w') →
     perform net act w = (Ret (is_not_None r), w')
     ∧ (is_not_None r = true ↔ r ≠ JNull))
  ∧
  (∀ h v,
     session (self w) = Some h →
     outcome (net (clock w)
                (post_request (self w) url (action_payload (self w) act))) v →
     perform net act w =
     (Ret (is_not_None v),
      sent h (post_request (self w) url (action_payload (self w) act)) w))
  ∧
  assoc "PanelId" (match action_payload (self w) act with
                   | JObject fields => fields
                   | _ => []
                   end) = Some (JString (panel_id (self w))).
Proof.
  intros Hu. pose proof (perform_run act w url Hu) as Hrun.
  split; [|split].
  - intros r w' Hpost. split; [|apply is_not_None_spec].
    rewrite Hrun, Hpost. reflexivity.
  - intros h v Hs Hv. rewrite Hrun, _post_run, Hs, (outcome_settle _ _ Hv).
    reflexivity.
  - destruct act; reflexivity.
Qed.

(** C7 (amended). A camera snapshot call whose executor result is an
    object with an [ImageData] field holding a non-empty string returns
    that string base64-decoded, as raw bytes, whenever the string
    decodes ([{"ImageData": "aGVsbG8="}] gives [b"hello"]); an object
    without the field, and no result at all, give [None]. Nothing but
    the executor's call touches the world. *)
Theorem C7_camera_image (serial_no : string) (w : world) :
  (∀ fields s image w',
     _post net camera_url (camera_payload (self w) serial_no) w =
     (Ret (JObject fields), w') →
     assoc "ImageData" fields = Some (JString s) →
     s ≠ "" →
     b64decode (JString s) = Ret image →
     get_camera_image net serial_no w = (Ret (Some image), w'))
  ∧
  (∀ w',
     _post net camera_url (camera_payload (self w) serial_no) w =
     (Ret (JObject [("ImageData", JString "aGVsbG8=")]), w') →
     get_camera_image net serial_no w =
     (Ret (Some ["h"; "e"; "l"; "l"; "o"]%byte), w'))
  ∧
  (∀ fields w',
     _post net camera_url (camera_payload (self w) serial_no) w =
     (Ret (JObject fields), w') →
     assoc "ImageData" fields = None →
     get_camera_image net serial_no w = (Ret None, w'))
  ∧
  (∀ w',
     _post net camera_url (camera_payload (self w) serial_no) w = (Ret JNull, w') →
     get_camera_image net serial_no w = (Ret None, w')).
Proof.
  unfold get_camera_image, bind, get_self, ret, lift.
  fold camera_url. fold (camera_payload (self w) serial_no).
  repeat split.
  - intros fields s image w' -> Hf Hs Hd.
    destruct fields as [|f fields]; [discriminate|].
    cbn [truthy py_get]. rewrite Hf. cbn [default from_option id truthy].
    destruct (String.eqb_spec s ""); [contradiction|]. cbn [negb].
    rewrite Hd. reflexivity.
  - intros w' ->. reflexivity.
  - intros fields w' -> Hf.
    destruct fields as [|f fields]; [reflexivity|].
    cbn [truthy py_get]. rewrite Hf. reflexivity.
  - intros w' ->. reflexivity.
Qed.

End Properties.

(** * Scenarios on concrete sessions *)

(** A 200 response with [Content-Type: application/json] and body
    [{"a": 1}] decodes to that value; the same body served as
    [text/html] gives no result. *)
Example round_trip_json :
  fst (_get (demo_net (json_response (JObject [("a", JInt 1)]))) "https://x/"
         (demo_session (json_response (JObject [("a", JInt 1)]))))
  = Ret (JObject [("a", JInt 1)])
  ∧ fst (_get (demo_net (mk_response 200 (Some "text/html")
                           (Ret (JObject [("a", JInt 1)])) (Ret "{}")))
           "https://x/"
           (demo_session (mk_response 200 (Some "text/html")
                            (Ret (JObject [("a", JInt 1)])) (Ret "{}"))))
    = Ret JNull.
Proof. split; vm_compute; reflexivity. Qed.

(** Without a session nothing is sent: the lookup of [get] on [None]
    raises before the [try] can absorb anything. *)
Example get_without_session :
  _get (net_always (Ret (json_response JNull))) "https://x/" demo_new
  = (Raise (PyError "AttributeError"), demo_new).
Proof. vm_compute. reflexivity. Qed.

(** A body that does not decode is not one of the absorbed failures. *)
Example get_undecodable_body :
  fst (_get (demo_net (mk_response 200 (Some "application/json")
                         (Raise (PyError "JSONDecodeError")) (Ret "oops")))
         "https://x/"
         (demo_session (mk_response 200 (Some "application/json")
                          (Raise (PyError "JSONDecodeError")) (Ret "oops"))))
  = Raise (PyError "JSONDecodeError").
Proof. vm_compute. reflexivity. Qed.

(** C1, on the demo session: a 500 answer gives [None] from both
    [_get] and [_post]. *)
Lemma C1_witness :
  _get (demo_net (error_response 500)) "https://x/" (demo_session (error_response 500))
  = (Ret JNull,
     sent 0%nat (get_request (self (demo_session (error_response 500))) "https://x/")
          (demo_session (error_response 500)))
  ∧ _post (demo_net (error_response 500)) "https://x/" (JObject [])
          (demo_session (error_response 500))
    = (Ret JNull,
       sent 0%nat (post_request (self (demo_session (error_response 500)))
                     "https://x/" (JObject []))
            (demo_session (error_response 500))).
Proof.
  destruct (C1_request_executor (demo_net (error_response 500))
              (demo_session (error_response 500)) 0%nat "https://x/" (JObject [])
              eq_refl) as (Hget & Hpost & _).
  split.
  - apply Hget.
    apply (outcome_bad_status (error_response 500) "<html>error</html>");
      [discriminate|reflexivity].
  - apply Hpost.
    apply (outcome_bad_status (error_response 500) "<html>error</html>");
      [discriminate|reflexivity].
Defined.

(** C2, as stated, fails in two places. A session that logged in before
    and is refused with 401 on the next [login] raises
    [AuthenticationError] but still stores the old token; and a 200
    response whose decoded body is a list, which has no
    [AuthorizationToken] field, lets [AttributeError] escape. *)
Lemma C2_counterexample :
  (access_token (self (demo_session (error_response 401))) = JString "t1"
   ∧ fst (login (demo_net (error_response 401)) str_of
            (demo_session (error_response 401)))
     = Raise (AuthenticationError "Invalid credentials")
   ∧ access_token
       (self (snd (login (demo_net (error_response 401)) str_of
                     (demo_session (error_response 401)))))
     = JString "t1")
  ∧ login (net_always (Ret (json_response (JArray [])))) str_of demo_new
    = (Raise (PyError "AttributeError"),
       login_sent demo_new).
Proof. repeat split; vm_compute; reflexivity. Qed.

(** A first [login] that is refused leaves the token unset. *)
Example login_refused_first_time :
  fst (login (net_always (Ret (error_response 403))) str_of demo_new)
  = Raise (AuthenticationError "Invalid credentials")
  ∧ access_token
      (self (snd (login (net_always (Ret (error_response 403))) str_of demo_new)))
    = JNull.
Proof. split; vm_compute; reflexivity. Qed.

Example login_timeout :
  fst (login (net_always (Raise TimeoutError)) str_of demo_new)
  = Raise (AuthenticationError "Timeout during login").
Proof. vm_compute. reflexivity. Qed.

(** C3, as stated, fails where the executor returns a result that is
    present but empty: the service answers the GET for the logs with the
    JSON list [[]], the executor returns that list, not [None], and the
    snapshot has no ["Logs"] key. *)
Lemma C3_counterexample :
  fst (_get (demo_net (json_response (JArray []))) (fst (snd logs_entry))
         (demo_session (json_response (JArray []))))
  = Ret (JArray [])
  ∧ is_not_None (JArray []) = true
  ∧ data_endpoints (self (demo_session (json_response (JArray []))))
    = [logs_entry; ("Temperatures", ("POST", temperatures_url)); legacy_entry]
  ∧ fst (retrieve_all_data (demo_net (json_response (JArray [])))
           (demo_session (json_response (JArray []))))
    = Ret (demo_snapshot (json_response (JArray [])))
  ∧ demo_snapshot (json_response (JArray [])) !! "Logs" = None.
Proof. repeat split; vm_compute; reflexivity. Qed.

(** C3 (amended), on the demo session whose service answers with a
    temperature list: the POST entry is reached after the GET entry,
    sends [{"PanelId": "42"}], and its result is in the snapshot. *)
Lemma C3_witness :
  ∃ d1 w1,
    fetch_entries (demo_net (json_response temperatures)) [logs_entry] ∅
      (demo_session (json_response temperatures)) = (Ret d1, w1)
    ∧ ∃ h r,
        session (self (demo_session (json_response temperatures))) = Some h
        ∧ _post (demo_net (json_response temperatures)) temperatures_url
            (panel_payload (self (demo_session (json_response temperatures)))) w1
          = (Ret r,
             sent h (post_request (self (demo_session (json_response temperatures)))
                       temperatures_url
                       (panel_payload (self (demo_session (json_response temperatures)))))
                  w1)
        ∧ demo_snapshot (json_response temperatures) !! "Temperatures"
          = (if truthy r then Some r else None).
Proof.
  apply (C3_snapshot_entries (demo_net (json_response temperatures))
           (demo_session (json_response temperatures))
           (demo_after_retrieve (json_response temperatures))
           (demo_snapshot (json_response temperatures))
           [logs_entry] [legacy_entry] "Temperatures" "POST" temperatures_url).
  - vm_compute. reflexivity.
  - change (NoDup ["Logs"; "Temperatures"; "Legacy"]).
    apply (bool_decide_unpack _). vm_compute. reflexivity.
  - discriminate.
  - vm_compute. reflexivity.
Defined.

Example snapshot_of_temperatures :
  demo_snapshot (json_response temperatures) !! "Temperatures" = Some temperatures
  ∧ demo_snapshot (json_response temperatures) !! "Legacy" = None
  ∧ demo_snapshot (error_response 500) !! "Temperatures" = None
  ∧ demo_snapshot (error_response 500) !! "Lock Status" = Some (JArray []).
Proof. repeat split; vm_compute; reflexivity. Qed.

(** C5, as stated, fails on the session the constructor makes, whose
    header set is empty while no token is stored, and after a [login]
    that is answered with 200 and an object without a token: the stored
    token is [None] and the header set still carries the token of the
    login before. *)
Lemma C5_counterexample :
  (access_token (self demo_new) = JNull
   ∧ headers (self demo_new) = ∅
   ∧ headers (self demo_new)
     ≠ bearer_headers (str_of (access_token (self demo_new))))
  ∧
  (access_token
     (self (snd (login (demo_net (json_response (JObject []))) str_of
                   (demo_session (json_response (JObject []))))))
   = JNull
   ∧ headers
       (self (snd (login (demo_net (json_response (JObject []))) str_of
                     (demo_session (json_response (JObject []))))))
     = bearer_headers "t1"
   ∧ bearer_headers "t1" ≠ bearer_headers (str_of JNull)).
Proof.
  repeat split; try (vm_compute; reflexivity).
  - intros H. apply (f_equal (λ m : gmap string string, m !! "Accept")) in H.
    vm_compute in H. discriminate.
  - intros H. apply (f_equal (λ m : gmap string string, m !! "Authorization")) in H.
    vm_compute in H. discriminate.
Qed.

(** [arm("total")] against a service answering 200 gives [true], against
    one answering 500 [false]. *)
Example arm_total_200_and_500 :
  fst (arm_system (demo_net (json_response (JObject [("Status", JString "ok")])))
         "total" (demo_session (json_response (JObject [("Status", JString "ok")]))))
  = Ret true
  ∧ fst (arm_system (demo_net (error_response 500)) "total"
           (demo_session (error_response 500)))
    = Ret false.
Proof. split; vm_compute; reflexivity. Qed.

(** C6, on the demo session: arming against a 500 answer. *)
Lemma C6_witness :
  perform (demo_net (error_response 500)) (Arm "total")
    (demo_session (error_response 500))
  = (Ret false,
     sent 0%nat
       (post_request (self (demo_session (error_response 500)))
          (API_URL ++ "/api/Panel/Arm")
          (action_payload (self (demo_session (error_response 500))) (Arm "total")))
       (demo_session (error_response 500))).
Proof.
  assert (Ht : action_target (self (demo_session (error_response 500))) (Arm "total")
               = Some (API_URL ++ "/api/Panel/Arm")).
  { vm_compute. reflexivity. }
  destruct (C6_actions (demo_net (error_response 500)) (Arm "total")
              (demo_session (error_response 500)) _ Ht) as (_ & Hwire & _).
  apply (Hwire 0%nat JNull); [reflexivity|].
  apply (outcome_bad_status (error_response 500) "<html>error</html>");
    [discriminate|reflexivity].
Defined.

(** C7, as stated, fails on a response that contains the field with an
    empty string: its base64 decoding is the empty byte buffer, and the
    call returns [None]. *)
Lemma C7_counterexample :
  assoc "ImageData" [("ImageData", JString "")] = Some (JString "")
  ∧ b64decode (JString "") = Ret []
  ∧ fst (_post (demo_net (json_response (JObject [("ImageData", JString "")])))
           camera_url
           (camera_payload
              (self (demo_session (json_response (JObject [("ImageData", JString "")]))))
              "cam1")
           (demo_session (json_response (JObject [("ImageData", JString "")]))))
    = Ret (JObject [("ImageData", JString "")])
  ∧ fst (get_camera_image
           (demo_net (json_response (JObject [("ImageData", JString "")]))) "cam1"
           (demo_session (json_response (JObject [("ImageData", JString "")]))))
    = Ret None.
Proof. repeat split; vm_compute; reflexivity. Qed.

Example camera_hello :
  fst (get_camera_image
         (demo_net (json_response (JObject [("ImageData", JString "aGVsbG8=")])))
         "cam1"
         (demo_session (json_response (JObject [("ImageData", JString "aGVsbG8=")]))))
  = Ret (Some ["h"; "e"; "l"; "l"; "o"]%byte)
  ∧ fst (get_camera_image (demo_net (json_response (JObject [("Other", JInt 1)])))
           "cam1" (demo_session (json_response (JObject [("Other", JInt 1)]))))
    = Ret None
  ∧ fst (get_camera_image (demo_net (error_response 500)) "cam1"
           (demo_session (error_response 500)))
    = Ret None.
Proof. repeat split; vm_compute; reflexivity. Qed.

(** C9, on the demo session: the logout endpoint answers 500 and the
    connection is released all the same. *)
Lemma C9_witness :
  logout (demo_net (error_response 500)) (demo_session (error_response 500))
  = (Ret tt,
     released 0%nat
       (sent 0%nat (logout_request (self (demo_session (error_response 500))))
          (demo_session (error_response 500))))
  ∧ session (self (snd (logout (demo_net (error_response 500))
                          (demo_session (error_response 500))))) = None
  ∧ trace (snd (logout (demo_net (error_response 500))
                  (demo_session (error_response 500))))
    = (trace (demo_session (error_response 500))
       ++ [ESend 0%nat (logout_request (self (demo_session (error_response 500))));
           EClose 0%nat])%list.
Proof.
  apply (C9_logout_releases (demo_net (error_response 500))
           (demo_session (error_response 500)) 0%nat JNull).
  - reflexivity.
  - apply (outcome_bad_status (error_response 500) "<html>error</html>");
      [discriminate|reflexivity].
Defined.

(** A failure the executor does not absorb skips the release. *)
Example logout_leak_on_unexpected_error :
  fst (logout (demo_net (mk_response 200 (Some "application/json")
                           (Raise (PyError "JSONDecodeError")) (Ret "")))
         (demo_session (mk_response 200 (Some "application/json")
                          (Raise (PyError "JSONDecodeError")) (Ret ""))))
  = Raise (PyError "JSONDecodeError")
  ∧ session (self (snd (logout
        (demo_net (mk_response 200 (Some "application/json")
                     (Raise (PyError "JSONDecodeError")) (Ret "")))
        (demo_session (mk_response 200 (Some "application/json")
                         (Raise (PyError "JSONDecodeError")) (Ret ""))))))
    = Some 0%nat.
Proof. split; vm_compute; reflexivity. Qed.

(** C2 (amended), on a first [login] that is refused with 403. *)
Lemma C2_witness :
  fst (login (net_always (Ret (error_response 403))) str_of demo_new)
  = Raise (AuthenticationError "Invalid credentials")
  ∧ access_token
      (self (snd (login (net_always (Ret (error_response 403))) str_of demo_new)))
    = access_token (self demo_new)
  ∧ headers
      (self (snd (login (net_always (Ret (error_response 403))) str_of demo_new)))
    = headers (self demo_new).
Proof.
  apply (proj1 (C2_login_failures (net_always (Ret (error_response 403)))
                  str_of demo_new) (error_response 403));
    [reflexivity|discriminate].
Defined.

(** C4, on the demo session against a service that answers 500 to
    everything after the login: every answer is a specified outcome, so
    [retrieve_all_data] returns. *)
Lemma C4_witness :
  ∃ snap w',
    retrieve_all_data (demo_net (error_response 500))
      (demo_session (error_response 500)) = (Ret snap, w').
Proof.
  apply (proj2 (C4_lock_status_key (demo_net (error_response 500))
                  (demo_session (error_response 500))) 0%nat);
    [reflexivity|].
  intros [|n] rq.
  - exists (token_body "t1").
    apply (outcome_json (json_response (token_body "t1"))); reflexivity.
  - exists JNull.
    apply (outcome_bad_status (error_response 500) "<html>error</html>");
      [discriminate|reflexivity].
Defined.

(** C5 (amended), on the demo session: after the login that issued
    ["t1"], a GET carries [Bearer t1]. *)
Lemma C5_witness :
  ∃ h token,
    access_token (self (demo_session (error_response 500))) = token
    ∧ truthy token = true
    ∧ headers (self (demo_session (error_response 500)))
      = bearer_headers (str_of token)
    ∧ session (self (demo_session (error_response 500))) = Some h
    ∧ ∀ url,
        trace (snd (_get (demo_net (error_response 500)) url
                      (demo_session (error_response 500))))
        = (trace (demo_session (error_response 500))
           ++ [ESend h (mk_request "GET" url None
                          (bearer_headers (str_of token)))])%list.
Proof.
  assert (Hok : fst (login (demo_net (error_response 500)) str_of demo_new) = Ret tt).
  { vm_compute. reflexivity. }
  destruct (proj2 (proj2 (C5_headers_follow_token (demo_net (error_response 500))
                            str_of demo_catalog demo_actions)) demo_new Hok)
    as (h & r & data & token & _ & _ & _ & Ht & Htok & Hh & Hs & Hget & _).
  exists h, token. repeat split; assumption.
Defined.

(** C7 (amended), on the demo session: the service answers the camera
    POST with [{"ImageData": "aGVsbG8="}]. *)
Lemma C7_witness :
  get_camera_image
    (demo_net (json_response (JObject [("ImageData", JString "aGVsbG8=")]))) "cam1"
    (demo_session (json_response (JObject [("ImageData", JString "aGVsbG8=")])))
  = (Ret (Some ["h"; "e"; "l"; "l"; "o"]%byte),
     snd (_post
            (demo_net (json_response (JObject [("ImageData", JString "aGVsbG8=")])))
            camera_url
            (camera_payload
               (self (demo_session
                        (json_response (JObject [("ImageData", JString "aGVsbG8=")]))))
               "cam1")
            (demo_session
               (json_response (JObject [("ImageData", JString "aGVsbG8=")]))))).
Proof.
  apply (proj1 (C7_camera_image
                  (demo_net (json_response (JObject [("ImageData", JString "aGVsbG8=")])))
                  "cam1"
                  (demo_session
                     (json_response (JObject [("ImageData", JString "aGVsbG8=")]))))
           [("ImageData", JString "aGVsbG8=")] "aGVsbG8=").
  - vm_compute. reflexivity.
  - reflexivity.
  - discriminate.
  - vm_compute. reflexivity.
Defined.

(** * Further properties of the client *)

Create HintDb escape.
Create HintDb protocol.

Section Further.

Variable net : nat → request → res response.
Variable py_str : json → string.
Variable data_cat : string → list (string * (string * string)).
Variable action_cat : gmap string (string * string).

(** ** [login]: connection, success and failure *)

Lemma login_sent_fields (w : world) :
  session (self (login_sent w)) = Some (login_handle w)
  ∧ clock (login_sent w) = S (clock w)
  ∧ trace (login_sent w) =
    (trace w
     ++ match session (self w) with
        | None => [EOpen (opened w)]
        | Some _ => []
        end
     ++ [ESend (login_handle w) (login_request (self w))])%list
  ∧ opened (login_sent w) =
    match session (self w) with
    | None => S (opened w)
    | Some _ => opened w
    end.
Proof.
  unfold login_sent, login_handle, ensure_session, sent.
  destruct (session (self w)) as [h|] eqn:Hs; cbn; rewrite ?Hs;
    repeat split; try reflexivity.
  rewrite <- app_assoc. reflexivity.
Qed.

(** What [login] leaves of the world apart from token and header set is
    the world right after its request went out, on every path. *)
Lemma login_world (w : world) :
  session (self (snd (login net py_str w))) = session (self (login_sent w))
  ∧ clock (snd (login net py_str w)) = clock (login_sent w)
  ∧ trace (snd (login net py_str w)) = trace (login_sent w)
  ∧ opened (snd (login net py_str w)) = opened (login_sent w).
Proof.
  rewrite login_run.
  destruct (net (clock w) _) as [r|e]; [|repeat split].
  destruct (status r =? 200); [|repeat split].
  destruct (json_ r) as [data|e]; [|repeat split].
  destruct (py_get data "AuthorizationToken") as [token|e]; [|repeat split].
  destruct (truthy token); repeat split.
Qed.

Lemma login_connection (w : world) :
  session (self (snd (login net py_str w))) =
  Some (default (opened w) (session (self w)))
  ∧ clock (snd (login net py_str w)) = S (clock w)
  ∧ trace (snd (login net py_str w)) =
    (trace w
     ++ match session (self w) with
        | None => [EOpen (opened w)]
        | Some _ => []
        end
     ++ [ESend (default (opened w) (session (self w)))
           (mk_request "POST" (API_URL ++ "/api/Login/Login")
              (Some (JObject [("userId", JString (email (self w)));
                              ("password", JString (password (self w)))]))
              ∅)])%list
  ∧ opened (snd (login net py_str w)) =
    match session (self w) with
    | None => S (opened w)
    | Some _ => opened w
    end.
Proof.
  destruct (login_world w) as (Hs & Hc & Ht & Ho).
  destruct (login_sent_fields w) as (Hs' & Hc' & Ht' & Ho').
  rewrite Hs, Hc, Ht, Ho.
  split; [exact Hs'|]. split; [exact Hc'|]. split; [exact Ht'|exact Ho'].
Qed.

(** X1. However [login] ends, returning or raising, the instance holds a
    connection afterwards: the one it held before, or a new one when it
    held none, and a new one is opened in no other case. Exactly one
    request has gone out, the POST of [{userId, password}] to the login
    URL, with no header set even when a token was stored. *)
Theorem login_holds_connection (w : world) :
  session (self (snd (login net py_str w))) =
  Some (default (opened w) (session (self w)))
  ∧ clock (snd (login net py_str w)) = S (clock w)
  ∧ trace (snd (login net py_str w)) =
    (trace w
     ++ match session (self w) with
        | None => [EOpen (opened w)]
        | Some _ => []
        end
     ++ [ESend (default (opened w) (session (self w)))
           (mk_request "POST" (API_URL ++ "/api/Login/Login")
              (Some (JObject [("userId", JString (email (self w)));
                              ("password", JString (password (self w)))]))
              ∅)])%list
  ∧ opened (snd (login net py_str w)) =
    match session (self w) with
    | None => S (opened w)
    | Some _ => opened w
    end.
Proof. exact (login_connection w). Qed.

(** X2. [login] returns exactly when the service answers 200 with a body
    that decodes to an object whose [AuthorizationToken] is truthy; any
    truthy value will do, a string or not. *)
Theorem login_returns_iff (w : world) :
  fst (login net py_str w) = Ret tt
  ↔ ∃ r fields token,
      net (clock w) (login_request (self w)) = Ret r
      ∧ status r = 200
      ∧ json_ r = Ret (JObject fields)
      ∧ assoc "AuthorizationToken" fields = Some token
      ∧ truthy token = true.
Proof.
  rewrite login_run. split.
  - destruct (net (clock w) _) as [r|e] eqn:Hnet; [|discriminate].
    destruct (status r =? 200) eqn:Hs; [|discriminate].
    destruct (json_ r) as [data|e] eqn:Hj; [|discriminate].
    destruct data as [| | | | |items|fields]; try discriminate.
    cbn [py_get].
    destruct (assoc "AuthorizationToken" fields) as [token|] eqn:Ha;
      cbn [default from_option id]; [|discriminate].
    destruct (truthy token) eqn:Ht; [|discriminate].
    intros _. exists r, fields, token. apply Z.eqb_eq in Hs.
    repeat split; assumption.
  - intros (r & fields & token & -> & -> & -> & Ha & Ht).
    cbn [py_get Z.eqb Pos.eqb]. rewrite Ha. cbn [default from_option id].
    rewrite Ht. reflexivity.
Qed.

(** X3. A [login] that raises, whatever it raises, leaves the header set
    as it was, and the token either as it was or replaced by a falsy
    value; the connection stays held, and a [_get] made next is sent
    through it with that old header set, there being no check of the
    token before a request. *)
Theorem login_raise_effects (w : world) (e : exn) :
  fst (login net py_str w) = Raise e →
  headers (self (snd (login net py_str w))) = headers (self w)
  ∧ (access_token (self (snd (login net py_str w))) = access_token (self w)
     ∨ truthy (access_token (self (snd (login net py_str w)))) = false)
  ∧ ∀ url,
      trace (snd (_get net url (snd (login net py_str w)))) =
      (trace (snd (login net py_str w))
       ++ [ESend (default (opened w) (session (self w)))
             (mk_request "GET" url None (headers (self w)))])%list.
Proof.
  intros Hraise.
  destruct (login_connection w) as (Hs & _).
  destruct (login_sent_token w) as [Htok Hhdr].
  assert (Hh : headers (self (snd (login net py_str w))) = headers (self w)
               ∧ (access_token (self (snd (login net py_str w)))
                  = access_token (self w)
                  ∨ truthy (access_token (self (snd (login net py_str w))))
                    = false)).
  { revert Hraise. rewrite login_run.
    destruct (net (clock w) _) as [r|e0]; [|intros _; split; [|left]; assumption].
    destruct (status r =? 200); [|intros _; split; [|left]; assumption].
    destruct (json_ r) as [data|e0]; [|intros _; split; [|left]; assumption].
    destruct (py_get data "AuthorizationToken") as [token|e0];
      [|intros _; split; [|left]; assumption].
    destruct (truthy token) eqn:Ht; [discriminate|].
    intros _. split; [exact Hhdr|right; exact Ht]. }
  destruct Hh as [Hh Ht]. split; [exact Hh|]. split; [exact Ht|].
  intros url. rewrite _get_run, Hs. unfold get_request. rewrite Hh. reflexivity.
Qed.

(** ** Exceptions that never escape *)

Lemma never_absorbed_ret {A} (a : A) : never_absorbed (ret a).
Proof. intros w e H. discriminate. Qed.

Lemma never_absorbed_get_self : never_absorbed get_self.
Proof. intros w e H. discriminate. Qed.

Lemma never_absorbed_bind {A B} (m : M A) (k : A → M B) :
  never_absorbed m → (∀ a, never_absorbed (k a)) → never_absorbed (bind m k).
Proof.
  intros Hm Hk w e. unfold bind. specialize (Hm w).
  destruct (m w) as [[a|e'] w1]; cbn [fst] in *.
  - apply Hk.
  - intros [= <-]. apply Hm. reflexivity.
Qed.

Lemma settle_raise (answer : res response) (e : exn) :
  settle answer = Raise e → absorbed e = false.
Proof.
  unfold settle. destruct (exchange answer) as [v|e']; [discriminate|].
  destruct (absorbed e') eqn:Ha; [discriminate|]. intros [= <-]. exact Ha.
Qed.

Lemma never_absorbed__get (url : string) : never_absorbed (_get net url).
Proof.
  intros w e. rewrite _get_run.
  destruct (session (self w)); cbn [fst].
  - apply settle_raise.
  - intros [= <-]. reflexivity.
Qed.

Lemma never_absorbed__post (url : string) (payload : json) :
  never_absorbed (_post net url payload).
Proof.
  intros w e. rewrite _post_run.
  destruct (session (self w)); cbn [fst].
  - apply settle_raise.
  - intros [= <-]. reflexivity.
Qed.

Lemma never_absorbed_py_get (d : json) (key : string) :
  never_absorbed (lift (py_get d key)).
Proof.
  intros w e. unfold lift. cbn [fst].
  destruct d; cbn [py_get]; try discriminate; intros [= <-]; reflexivity.
Qed.

Lemma a2b_loop_raise (s : string) :
  ∀ quad_pos leftchar pads out e,
    a2b_loop s quad_pos leftchar pads out = Raise e →
    e = PyError "binascii.Error".
Proof.
  induction s as [|c rest IH]; intros quad_pos leftchar pads out e; cbn [a2b_loop].
  - destruct quad_pos; [discriminate|]. intros [= <-]. reflexivity.
  - destruct (Ascii.eqb c "=").
    + destruct (2 <=? quad_pos)%nat; [|apply IH].
      destruct (4 <=? quad_pos + S pads)%nat; [discriminate|apply IH].
    + destruct (b64_value c) as [v|]; [|apply IH].
      destruct quad_pos as [|[|[|q]]]; apply IH.
Qed.

Lemma never_absorbed_b64decode (v : json) : never_absorbed (lift (b64decode v)).
Proof.
  intros w e. unfold lift. cbn [fst].
  destruct v; cbn [b64decode]; try (intros [= <-]; reflexivity).
  destruct (all_ascii s); [|intros [= <-]; reflexivity].
  intros H. apply a2b_loop_raise in H. subst e. reflexivity.
Qed.

Lemma never_absorbed_action_url (key : string) : never_absorbed (action_url key).
Proof.
  intros w e. rewrite action_url_run.
  destruct (action_endpoints (self w) !! key) as [[m u]|]; cbn [fst];
    [discriminate|]. intros [= <-]. reflexivity.
Qed.

#[local] Hint Resolve never_absorbed_ret never_absorbed_get_self
  never_absorbed__get never_absorbed__post never_absorbed_py_get
  never_absorbed_b64decode never_absorbed_action_url : escape.

Ltac escape_step :=
  match goal with
  | |- never_absorbed (bind _ _) => apply never_absorbed_bind; [|intros ?]
  | |- never_absorbed (if ?b then _ else _) => destruct b
  | |- never_absorbed _ => solve [auto with escape]
  end.

Lemma never_absorbed_get_lock_status : never_absorbed (get_lock_status net).
Proof. unfold get_lock_status. repeat escape_step. Qed.

Lemma never_absorbed_fetch_entries entries data :
  never_absorbed (fetch_entries net entries data).
Proof.
  revert data. induction entries as [|[key [method url]] rest IH]; intros data.
  - apply never_absorbed_ret.
  - cbn [fetch_entries].
    destruct (String.eqb method "GET"); [|destruct (String.eqb method "POST")].
    + apply never_absorbed_bind; [auto with escape|intros r; apply IH].
    + apply never_absorbed_bind; [auto with escape|intros s].
      apply never_absorbed_bind; [auto with escape|intros r; apply IH].
    + apply IH.
Qed.

Lemma never_absorbed_retrieve_all_data : never_absorbed (retrieve_all_data net).
Proof.
  unfold retrieve_all_data.
  apply never_absorbed_bind; [auto with escape|intros s].
  apply never_absorbed_bind; [apply never_absorbed_fetch_entries|intros d].
  apply never_absorbed_bind; [apply never_absorbed_get_lock_status|intros l].
  apply never_absorbed_ret.
Qed.

Lemma never_absorbed_perform (act : action) : never_absorbed (perform net act).
Proof.
  destruct act; cbn [perform];
    unfold arm_system, disarm_system, lock_door, unlock_door,
           turn_on_smartplug, turn_off_smartplug;
    repeat escape_step.
Qed.

Lemma never_absorbed_get_camera_image (serial_no : string) :
  never_absorbed (get_camera_image net serial_no).
Proof. unfold get_camera_image. repeat escape_step. Qed.

Lemma never_absorbed_close : never_absorbed close.
Proof.
  intros w e. rewrite close_run. destruct (session (self w)); discriminate.
Qed.

Lemma never_absorbed_logout : never_absorbed (logout net).
Proof.
  unfold logout. apply never_absorbed_bind; [auto with escape|intros _].
  apply never_absorbed_close.
Qed.

Lemma never_absorbed_login : never_absorbed (login net py_str).
Proof.
  intros w e. rewrite login_run.
  destruct (net (clock w) _) as [r|e0]; cbn [fst].
  - destruct (status r =? 200); [|intros [= <-]; reflexivity].
    destruct (json_ r) as [data|e0]; [|intros [= <-]; destruct e0; reflexivity].
    destruct (py_get data "AuthorizationToken") as [token|e0];
      [|intros [= <-]; destruct e0; reflexivity].
    destruct (truthy token); [discriminate|intros [= <-]; reflexivity].
  - intros [= <-]. destruct e0; reflexivity.
Qed.

(** X4. No coroutine of the client, [login] included, ever lets
    [asyncio.TimeoutError] or [aiohttp.ClientError] escape: whatever
    exception a call ends with is of another class. *)
Theorem no_transport_exception_escapes (c : call) (w : world) (e : exn) :
  call_raised net py_str c w = Some e →
  e ≠ TimeoutError ∧ e ≠ ClientError.
Proof.
  intros Hc.
  assert (Ha : absorbed e = false).
  { unfold call_raised, raised in Hc.
    destruct c;
      match type of Hc with
      | match fst (?m w) with _ => _ end = _ =>
          destruct (fst (m w)) as [a|e'] eqn:Hm; [discriminate|];
          injection Hc as ->
      end.
    - exact (never_absorbed_login _ _ Hm).
    - exact (never_absorbed_logout _ _ Hm).
    - exact (never_absorbed_close _ _ Hm).
    - exact (never_absorbed_retrieve_all_data _ _ Hm).
    - exact (never_absorbed_get_lock_status _ _ Hm).
    - exact (never_absorbed_perform _ _ _ Hm).
    - exact (never_absorbed_get_camera_image _ _ _ Hm).
    - exact (never_absorbed__get _ _ _ Hm).
    - exact (never_absorbed__post _ _ _ _ Hm). }
  split; intros ->; discriminate.
Qed.

(** ** Calls on an instance that holds no connection *)

Lemma fetch_entries_no_session entries :
  ∀ data (w : world),
    session (self w) = None →
    fetch_entries net entries data w = (Raise (PyError "AttributeError"), w)
    ∨ fetch_entries net entries data w = (Ret data, w).
Proof.
  induction entries as [|[key [method url]] rest IH]; intros data w Hs.
  - right. reflexivity.
  - cbn [fetch_entries].
    destruct (String.eqb method "GET"); [|destruct (String.eqb method "POST")].
    + left. unfold bind. rewrite _get_run, Hs. reflexivity.
    + left. unfold bind, get_self. rewrite _post_run, Hs. reflexivity.
    + apply IH. exact Hs.
Qed.

(** X5. On an instance that holds no connection (before the first
    [login], after [close] or [logout]) every request fails the same
    way: [_get], [_post], [get_lock_status], [retrieve_all_data],
    [get_camera_image], [logout] and every action whose URL is known
    raise [AttributeError], nothing is sent, and the world is left as it
    was. In particular a second [logout] raises, where a second [close]
    returns. *)
Theorem no_connection_raises (w : world) :
  session (self w) = None →
  (∀ url, _get net url w = (Raise (PyError "AttributeError"), w))
  ∧ (∀ url payload,
       _post net url payload w = (Raise (PyError "AttributeError"), w))
  ∧ get_lock_status net w = (Raise (PyError "AttributeError"), w)
  ∧ retrieve_all_data net w = (Raise (PyError "AttributeError"), w)
  ∧ (∀ serial_no,
       get_camera_image net serial_no w = (Raise (PyError "AttributeError"), w))
  ∧ logout net w = (Raise (PyError "AttributeError"), w)
  ∧ (∀ act url,
       action_target (self w) act = Some url →
       perform net act w = (Raise (PyError "AttributeError"), w)).
Proof.
  intros Hs.
  assert (Hget : ∀ url, _get net url w = (Raise (PyError "AttributeError"), w)).
  { intros url. rewrite _get_run, Hs. reflexivity. }
  assert (Hpost : ∀ url payload,
             _post net url payload w = (Raise (PyError "AttributeError"), w)).
  { intros url payload. rewrite _post_run, Hs. reflexivity. }
  assert (Hlock : get_lock_status net w = (Raise (PyError "AttributeError"), w)).
  { rewrite get_lock_status_run, Hget. reflexivity. }
  split; [exact Hget|]. split; [exact Hpost|]. split; [exact Hlock|].
  split; [|split; [|split]].
  - unfold retrieve_all_data, bind, get_self.
    destruct (fetch_entries_no_session (data_endpoints (self w)) ∅ w Hs) as [->| ->];
      [reflexivity|].
    rewrite Hlock. reflexivity.
  - intros serial_no. unfold get_camera_image, bind, get_self.
    rewrite Hpost. reflexivity.
  - rewrite logout_run, Hpost. reflexivity.
  - intros act url Hu. rewrite (perform_run net act w url Hu), Hpost. reflexivity.
Qed.

(** X6. [close] is not the end of an instance: a [login] after it opens
    a new connection, sends the login request through it and holds it,
    however that [login] ends. *)
Theorem login_after_close (w : world) :
  session (self (snd (login net py_str (snd (close w))))) = Some (opened w)
  ∧ trace (snd (login net py_str (snd (close w)))) =
    (trace (snd (close w))
     ++ [EOpen (opened w);
         ESend (opened w) (login_request (self w))])%list.
Proof.
  destruct (login_connection (snd (close w))) as (Hs & _ & Ht & _).
  assert (Hc : session (self (snd (close w))) = None
               ∧ opened (snd (close w)) = opened w
               ∧ login_request (self (snd (close w))) = login_request (self w)).
  { rewrite close_run. destruct (session (self w)) eqn:Hw; cbn [snd];
      repeat split; exact Hw. }
  destruct Hc as (Hnone & Hopened & Hrq).
  rewrite Hnone, Hopened in Hs, Ht. cbn [default from_option] in Hs, Ht.
  split; [exact Hs|]. rewrite Ht. unfold login_request in Hrq.
  rewrite Hrq. reflexivity.
Qed.

(** X15. [logout] has no [finally]: when its POST fails in a way the
    executor does not absorb (a body that does not decode, say), the
    exception escapes, [close] is not reached and the instance still
    holds the open connection. *)
Theorem logout_failure_keeps_connection (w : world) (h : handle) (e : exn) :
  session (self w) = Some h →
  exchange (net (clock w) (logout_request (self w))) = Raise e →
  absorbed e = false →
  logout net w = (Raise e, sent h (logout_request (self w)) w)
  ∧ session (self (snd (logout net w))) = Some h.
Proof.
  intros Hs He Ha.
  assert (Hrun : logout net w = (Raise e, sent h (logout_request (self w)) w)).
  { rewrite logout_run, _post_run, Hs. fold (logout_request (self w)).
    unfold settle. rewrite He, Ha. reflexivity. }
  rewrite Hrun. split; [reflexivity|exact Hs].
Qed.

(** ** Actions without a catalog entry *)

(** X7. An action whose key is missing from the action catalog raises
    [KeyError] before anything is built or sent; the smart plug
    operations do not consult the catalog and cannot fail this way. *)
Theorem action_without_entry (act : action) (w : world) :
  action_target (self w) act = None →
  perform net act w = (Raise (PyError "KeyError"), w)
  ∧ (∀ plug_id, act ≠ PlugOn plug_id ∧ act ≠ PlugOff plug_id).
Proof.
  intros Hu. split.
  - destruct act; cbn [action_target] in Hu; try discriminate; cbn [perform];
      unfold arm_system, disarm_system, lock_door, unlock_door;
      unfold bind at 1; rewrite action_url_run;
      destruct (action_endpoints (self w) !! _) as [[m u]|];
      try discriminate; reflexivity.
  - intros plug_id. destruct act; cbn [action_target] in Hu;
      split; discriminate.
Qed.

(** ** The requests and the values of a snapshot *)

Lemma fetch_entries_trace entries :
  ∀ data (w : world) h d w',
    session (self w) = Some h →
    fetch_entries net entries data w = (Ret d, w') →
    trace w' = (trace w ++ map (ESend h) (entry_requests (self w) entries))%list
    ∧ clock w' = (clock w + length (entry_requests (self w) entries))%nat
    ∧ self w' = self w.
Proof.
  induction entries as [|[key [method url]] rest IH]; intros data w h d w' Hs Hrun.
  - injection Hrun as _ <-. cbn. rewrite app_nil_r, Nat.add_0_r. repeat split.
  - cbn [fetch_entries entry_requests] in *.
    destruct (String.eqb method "GET"); [|destruct (String.eqb method "POST")].
    + unfold bind in Hrun. rewrite _get_run, Hs in Hrun.
      destruct (settle _) as [r|e]; [|discriminate].
      apply (IH _ _ h) in Hrun; [|exact Hs].
      destruct Hrun as (Ht & Hc & Hself). cbn [sent self trace clock] in *.
      rewrite Ht, Hc, <- app_assoc. cbn [map length app].
      repeat split; [lia|exact Hself].
    + unfold bind, get_self in Hrun. rewrite _post_run, Hs in Hrun.
      destruct (settle _) as [r|e]; [|discriminate].
      apply (IH _ _ h) in Hrun; [|exact Hs].
      destruct Hrun as (Ht & Hc & Hself). cbn [sent self trace clock] in *.
      rewrite Ht, Hc, <- app_assoc. cbn [map length app].
      repeat split; [lia|exact Hself].
    + apply (IH _ _ h _ _ Hs Hrun).
Qed.

(** X8. A [retrieve_all_data] that returns has sent, through the
    connection held, exactly one request for each GET or POST entry of
    the catalog, in the order of the catalog, and then the lock-status
    GET: nothing for an entry with another method, nothing twice, and
    every request with the header set stored on the instance. *)
Theorem retrieve_all_data_requests (w w' : world) (snap : gmap string json) :
  retrieve_all_data net w = (Ret snap, w') →
  ∃ h,
    session (self w) = Some h
    ∧ trace w' = (trace w ++ map (ESend h) (retrieve_requests (self w)))%list
    ∧ clock w' = (clock w + length (retrieve_requests (self w)))%nat
    ∧ Forall (λ rq, rq_headers rq = headers (self w)) (retrieve_requests (self w)).
Proof.
  intros Hrun.
  destruct (retrieve_all_data_inv net _ _ _ Hrun) as (d & w1 & r & Hf & Hself & Hget & _).
  destruct (_get_returns net _ _ _ _ Hget) as (h & Hs & ->).
  rewrite Hself in Hs. exists h. split; [exact Hs|].
  destruct (fetch_entries_trace _ _ _ h _ _ Hs Hf) as (Ht & Hc & _).
  unfold retrieve_requests. rewrite map_app, length_app, app_assoc, <- Ht.
  cbn [sent trace clock map length]. rewrite Hself, Hc.
  split; [reflexivity|]. split; [lia|].
  apply Forall_app. split; [|repeat constructor].
  generalize (data_endpoints (self w)). intros entries.
  induction entries as [|[key [method url]] rest IH]; cbn [entry_requests];
    [constructor|].
  destruct (String.eqb method "GET"); [|destruct (String.eqb method "POST")];
    [constructor; [reflexivity|exact IH]..|exact IH].
Qed.

Lemma settle_raise_inv (answer : res response) (e : exn) :
  settle answer = Raise e → exchange answer = Raise e ∧ absorbed e = false.
Proof.
  unfold settle. destruct (exchange answer) as [v|e']; [discriminate|].
  destruct (absorbed e') eqn:Ha; [discriminate|]. intros [= <-]. split; auto.
Qed.

Lemma fetch_entries_raise entries :
  ∀ data (w : world) h e w',
    session (self w) = Some h →
    fetch_entries net entries data w = (Raise e, w') →
    ∃ i rq,
      entry_requests (self w) entries !! i = Some rq
      ∧ settle (net (clock w + i)%nat rq) = Raise e
      ∧ trace w' =
        (trace w ++ map (ESend h) (take (S i) (entry_requests (self w) entries)))%list.
Proof.
  induction entries as [|[key [method url]] rest IH]; intros data w h e w' Hs Hrun.
  - discriminate.
  - cbn [fetch_entries entry_requests] in *.
    destruct (String.eqb method "GET"); [|destruct (String.eqb method "POST")].
    + unfold bind in Hrun. rewrite _get_run, Hs in Hrun.
      destruct (settle _) as [r|e0] eqn:Hsettle.
      * destruct (IH _ (sent h (get_request (self w) url) w) h _ _ Hs Hrun)
          as (i & rq & Hi & He & Ht).
        cbn [sent self trace clock] in *. exists (S i), rq.
        split; [exact Hi|]. rewrite <- Nat.add_succ_comm. split; [exact He|].
        rewrite Ht, <- app_assoc. reflexivity.
      * injection Hrun as <- <-. exists 0%nat, (get_request (self w) url).
        rewrite Nat.add_0_r. cbn [take]. rewrite take_0.
        split; [reflexivity|]. split; [exact Hsettle|reflexivity].
    + unfold bind, get_self in Hrun. rewrite _post_run, Hs in Hrun.
      fold (panel_payload (self w)) in Hrun.
      destruct (settle _) as [r|e0] eqn:Hsettle.
      * destruct (IH _ (sent h (post_request (self w) url (panel_payload (self w))) w)
                    h _ _ Hs Hrun)
          as (i & rq & Hi & He & Ht).
        cbn [sent self trace clock] in *. exists (S i), rq.
        split; [exact Hi|]. rewrite <- Nat.add_succ_comm. split; [exact He|].
        rewrite Ht, <- app_assoc. reflexivity.
      * injection Hrun as <- <-.
        exists 0%nat, (post_request (self w) url (panel_payload (self w))).
        rewrite Nat.add_0_r. cbn [take]. rewrite take_0.
        split; [reflexivity|]. split; [exact Hsettle|reflexivity].
    + apply (IH _ _ h _ _ Hs Hrun).
Qed.

(** X14. On an instance that holds a connection, [retrieve_all_data]
    raises only for a failure of one of its own requests that the
    executor does not absorb, and it stops there: the exception is the
    one of that exchange, the requests sent are the requests of X8 up to
    and including that one, and none of the later ones has gone out. *)
Theorem retrieve_all_data_stops_at_failure (w w' : world) (h : handle) (e : exn) :
  session (self w) = Some h →
  retrieve_all_data net w = (Raise e, w') →
  ∃ i rq,
    retrieve_requests (self w) !! i = Some rq
    ∧ exchange (net (clock w + i)%nat rq) = Raise e
    ∧ absorbed e = false
    ∧ trace w' =
      (trace w ++ map (ESend h) (take (S i) (retrieve_requests (self w))))%list.
Proof.
  intros Hs. unfold retrieve_all_data, bind, get_self, ret, retrieve_requests.
  destruct (fetch_entries net (data_endpoints (self w)) ∅ w) as [[d|e0] w1] eqn:Hf.
  - destruct (fetch_entries_trace _ _ _ h _ _ Hs Hf) as (Ht & Hc & Hself).
    rewrite get_lock_status_run, _get_run, Hself, Hs.
    destruct (settle _) as [r|e1] eqn:Hsettle; [discriminate|].
    intros [= <- <-]. rewrite Hc in Hsettle.
    destruct (settle_raise_inv _ _ Hsettle) as [Hex Ha].
    exists (length (entry_requests (self w) (data_endpoints (self w)))),
           (get_request (self w) (lock_status_url (self w))).
    split; [apply list_lookup_middle; reflexivity|].
    split; [exact Hex|]. split; [exact Ha|].
    rewrite take_ge by (rewrite length_app; cbn; lia).
    cbn [sent trace]. rewrite Ht, map_app, app_assoc. reflexivity.
  - intros [= <- <-].
    destruct (fetch_entries_raise _ _ _ h _ _ Hs Hf) as (i & rq & Hi & He & Ht).
    destruct (settle_raise_inv _ _ He) as [Hex Ha].
    exists i, rq. split; [apply lookup_app_l_Some; exact Hi|].
    split; [exact Hex|]. split; [exact Ha|].
    rewrite take_app_le by (apply lookup_lt_Some in Hi; lia). exact Ht.
Qed.

Lemma fetch_entries_values entries :
  ∀ data (w : world) d w' k v,
    fetch_entries net entries data w = (Ret d, w') →
    d !! k = Some v →
    data !! k = Some v ∨ (k ∈ (fst <$> entries) ∧ truthy v = true).
Proof.
  induction entries as [|[key [method url]] rest IH]; intros data w d w' k v Hrun Hk.
  - injection Hrun as <- _. left. exact Hk.
  - cbn [fetch_entries] in Hrun. rewrite fmap_cons. cbn [fst].
    assert (Hins : ∀ r data',
               data' = (if truthy r then <[key := r]> data else data) →
               data' !! k = Some v →
               data !! k = Some v ∨ (k ∈ key :: (fst <$> rest) ∧ truthy v = true)).
    { intros r data' -> Hl. destruct (truthy r) eqn:Hr; [|left; exact Hl].
      destruct (decide (key = k)) as [->|Hne].
      - rewrite lookup_insert_eq in Hl. injection Hl as <-.
        right. split; [left|exact Hr].
      - rewrite lookup_insert_ne in Hl by exact Hne. left. exact Hl. }
    destruct (String.eqb method "GET"); [|destruct (String.eqb method "POST")].
    + unfold bind in Hrun. destruct (_get net url w) as [[r|e] w1]; [|discriminate].
      destruct (IH _ _ _ _ _ _ Hrun Hk) as [Hl|[Hin Hv]].
      * exact (Hins r _ eq_refl Hl).
      * right. split; [right; exact Hin|exact Hv].
    + unfold bind, get_self in Hrun.
      destruct (_post net url _ w) as [[r|e] w1]; [|discriminate].
      destruct (IH _ _ _ _ _ _ Hrun Hk) as [Hl|[Hin Hv]].
      * exact (Hins r _ eq_refl Hl).
      * right. split; [right; exact Hin|exact Hv].
    + destruct (IH _ _ _ _ _ _ Hrun Hk) as [Hl|[Hin Hv]].
      * left. exact Hl.
      * right. split; [right; exact Hin|exact Hv].
Qed.

Lemma truthy_not_None (v : json) : truthy v = true → v ≠ JNull.
Proof. intros H ->. discriminate. Qed.

(** X9. A snapshot never binds a key to [None]: every key in it is the
    lock-status key or a key of the catalog; the value under a catalog
    key is truthy, and the value under the lock-status key is truthy or
    the empty list. *)
Theorem snapshot_values (w w' : world) (snap : gmap string json)
        (k : string) (v : json) :
  retrieve_all_data net w = (Ret snap, w') →
  snap !! k = Some v →
  v ≠ JNull
  ∧ ((k = "Lock Status" ∧ (truthy v = true ∨ v = JArray []))
     ∨ (k ∈ (fst <$> data_endpoints (self w)) ∧ truthy v = true)).
Proof.
  intros Hrun Hk.
  assert (Hlock : ∀ r, (if truthy r then r else JArray []) ≠ JNull
                       ∧ (truthy (if truthy r then r else JArray []) = true
                          ∨ (if truthy r then r else JArray []) = JArray [])).
  { intros r. destruct (truthy r) eqn:Hr.
    - split; [apply truthy_not_None; exact Hr|left; exact Hr].
    - split; [discriminate|right; reflexivity]. }
  destruct (retrieve_all_data_inv net _ _ _ Hrun) as (d & w1 & r & Hf & _ & _ & ->).
  assert (Hcase : (k = "Lock Status" ∧ (truthy v = true ∨ v = JArray []) ∧ v ≠ JNull)
                  ∨ (k ∈ (fst <$> data_endpoints (self w)) ∧ truthy v = true)).
  { destruct (decide ("Lock Status" = k)) as [<-|Hne].
    - rewrite lookup_insert_eq in Hk. injection Hk as <-.
      left. destruct (Hlock r) as [Hn Ht]. repeat split; assumption.
    - rewrite lookup_insert_ne in Hk by exact Hne.
      destruct (fetch_entries_values _ _ _ _ _ _ _ Hf Hk) as [He|Hin].
      + rewrite lookup_empty in He. discriminate.
      + right. exact Hin. }
  split.
  - destruct Hcase as [(_ & _ & Hn)|[_ Ht]];
      [exact Hn|apply truthy_not_None; exact Ht].
  - destruct Hcase as [(Hl & Ht & _)|Hin]; [left; split; assumption|right; exact Hin].
Qed.

Lemma fetch_entries_down entries :
  (∀ n rq, outcome (net n rq) JNull) →
  ∀ data (w : world) h,
    session (self w) = Some h →
    ∃ w', fetch_entries net entries data w = (Ret data, w') ∧ self w' = self w.
Proof.
  intros Hdown.
  induction entries as [|[key [method url]] rest IH]; intros data w h Hs.
  - exists w. split; reflexivity.
  - cbn [fetch_entries].
    destruct (String.eqb method "GET"); [|destruct (String.eqb method "POST")].
    + unfold bind. rewrite _get_run, Hs, (outcome_settle _ _ (Hdown _ _)).
      cbn [truthy]. apply (IH _ (sent h _ w) h). exact Hs.
    + unfold bind, get_self.
      rewrite _post_run, Hs, (outcome_settle _ _ (Hdown _ _)).
      cbn [truthy]. apply (IH _ (sent h _ w) h). exact Hs.
    + apply (IH _ w h Hs).
Qed.

(** X10. Against a service from which no request gets a result, every
    answer being one of the outcomes on which the executor returns
    [None] (an error status or a non-JSON content type with a body that
    can be read as text, a timeout, a transport error, or a JSON null),
    [retrieve_all_data] on an instance that holds a connection does not
    raise: it returns the snapshot [{"Lock Status": []}] and nothing
    else. *)
Theorem retrieve_all_data_service_down (w : world) (h : handle) :
  session (self w) = Some h →
  (∀ n rq, outcome (net n rq) JNull) →
  fst (retrieve_all_data net w) = Ret (<["Lock Status" := JArray []]> ∅).
Proof.
  intros Hs Hdown.
  destruct (fetch_entries_down (data_endpoints (self w)) Hdown ∅ w h Hs)
    as (w1 & Hf & Hself).
  unfold retrieve_all_data, bind, get_self, ret. rewrite Hf.
  rewrite get_lock_status_run, _get_run, Hself, Hs.
  rewrite (outcome_settle _ _ (Hdown _ _)). reflexivity.
Qed.

(** ** Where a camera image can come from, and what escapes *)

Lemma get_camera_image_run (serial_no : string) (w : world) :
  get_camera_image net serial_no w =
  match _post net camera_url (camera_payload (self w) serial_no) w with
  | (Ret response, w') =>
      if truthy response then
        match py_get response "ImageData" with
        | Ret image =>
            if truthy image then
              match b64decode image with
              | Ret image_data => (Ret (Some image_data), w')
              | Raise e => (Raise e, w')
              end
            else (Ret None, w')
        | Raise e => (Raise e, w')
        end
      else (Ret None, w')
  | (Raise e, w') => (Raise e, w')
  end.
Proof.
  unfold get_camera_image, bind, get_self, ret, lift.
  fold camera_url. fold (camera_payload (self w) serial_no).
  destruct (_post net camera_url _ w) as [[response|e] w']; [|reflexivity].
  destruct (truthy response); [|reflexivity].
  destruct (py_get response "ImageData") as [image|e]; [|reflexivity].
  destruct (truthy image); [|reflexivity].
  destruct (b64decode image); reflexivity.
Qed.

(** X11. [get_camera_image] returns bytes only when the executor
    returned an object whose [ImageData] is a non-empty string, and the
    bytes are then the base64 decoding of that string: an image is never
    made up from anything else. *)
Theorem camera_image_only_from_ImageData (serial_no : string) (w w' : world)
        (image_data : list byte) :
  get_camera_image net serial_no w = (Ret (Some image_data), w') →
  ∃ fields s,
    _post net camera_url (camera_payload (self w) serial_no) w
    = (Ret (JObject fields), w')
    ∧ assoc "ImageData" fields = Some (JString s)
    ∧ s ≠ ""
    ∧ b64decode (JString s) = Ret image_data.
Proof.
  rewrite get_camera_image_run.
  destruct (_post net camera_url _ w) as [[response|e] w1]; [|discriminate].
  destruct (truthy response); [|discriminate].
  destruct response as [| | | | |items|fields]; cbn [py_get]; try discriminate.
  destruct (assoc "ImageData" fields) as [image|] eqn:Ha;
    cbn [default from_option id]; [|discriminate].
  destruct (truthy image) eqn:Ht; [|discriminate].
  destruct (b64decode image) as [bytes|e] eqn:Hd; [|discriminate].
  intros [= <- <-].
  destruct image as [| | | |s| |]; cbn [b64decode] in Hd; try discriminate.
  exists fields, s. repeat split; try assumption.
  intros ->. discriminate.
Qed.

(** X12. What [get_camera_image] lets escape besides the executor's own
    exceptions: a truthy result that is not an object (a list, a string,
    a number, [true]) raises [AttributeError]; an [ImageData] that is
    truthy but not a string raises [TypeError]; and a string the decoder
    refuses raises the decoder's exception. The world is in each case
    the one the executor left. *)
Theorem camera_image_escapes (serial_no : string) (w w' : world) (response : json) :
  _post net camera_url (camera_payload (self w) serial_no) w = (Ret response, w') →
  truthy response = true →
  ((∀ fields, response ≠ JObject fields) →
   get_camera_image net serial_no w = (Raise (PyError "AttributeError"), w'))
  ∧ (∀ fields image,
       response = JObject fields →
       assoc "ImageData" fields = Some image →
       truthy image = true →
       (∀ s, image ≠ JString s) →
       get_camera_image net serial_no w = (Raise (PyError "TypeError"), w'))
  ∧ (∀ fields s e,
       response = JObject fields →
       assoc "ImageData" fields = Some (JString s) →
       s ≠ "" →
       b64decode (JString s) = Raise e →
       get_camera_image net serial_no w = (Raise e, w')).
Proof.
  intros Hpost Ht. rewrite get_camera_image_run, Hpost, Ht.
  split; [|split].
  - intros Hno. destruct response; cbn [py_get]; try reflexivity.
    exfalso. exact (Hno _ eq_refl).
  - intros fields image -> Ha Hti Hns. cbn [py_get]. rewrite Ha.
    cbn [default from_option id]. rewrite Hti.
    destruct image; cbn [b64decode]; try reflexivity.
    exfalso. exact (Hns _ eq_refl).
  - intros fields s e -> Ha Hs Hd. cbn [py_get]. rewrite Ha.
    cbn [default from_option id truthy].
    destruct (String.eqb_spec s ""); [contradiction|]. cbn [negb].
    rewrite Hd. reflexivity.
Qed.

(** ** The connection protocol *)

Lemma conn_run_app (live : option handle) (tr1 tr2 : list event) :
  conn_run live (tr1 ++ tr2) =
  match conn_run live tr1 with
  | Some live' => conn_run live' tr2
  | None => None
  end.
Proof.
  revert live. induction tr1 as [|ev tr1 IH]; intros live; [reflexivity|].
  cbn [app conn_run]. destruct (conn_step live ev); [apply IH|reflexivity].
Qed.

Lemma follows_protocol_same {A} (m : M A) :
  (∀ w, snd (m w) = w) → follows_protocol m.
Proof.
  intros H w. exists []. rewrite H, app_nil_r. split; reflexivity.
Qed.

Lemma follows_protocol_bind {A B} (m : M A) (k : A → M B) :
  follows_protocol m → (∀ a, follows_protocol (k a)) → follows_protocol (bind m k).
Proof.
  intros Hm Hk w. unfold bind. destruct (Hm w) as (evs1 & Ht1 & Hc1).
  destruct (m w) as [[a|e] w1]; cbn [snd] in *.
  - destruct (Hk a w1) as (evs2 & Ht2 & Hc2).
    exists (evs1 ++ evs2)%list. rewrite Ht2, Ht1, app_assoc, conn_run_app, Hc1.
    split; [reflexivity|exact Hc2].
  - exists evs1. split; assumption.
Qed.

Lemma follows_protocol__get (url : string) : follows_protocol (_get net url).
Proof.
  intros w. rewrite _get_run. destruct (session (self w)) as [h|] eqn:Hs; cbn [snd].
  - exists [ESend h (get_request (self w) url)].
    cbn [sent self trace conn_run conn_step]. rewrite Nat.eqb_refl, Hs.
    split; reflexivity.
  - exists []. rewrite app_nil_r, Hs. split; reflexivity.
Qed.

Lemma follows_protocol__post (url : string) (payload : json) :
  follows_protocol (_post net url payload).
Proof.
  intros w. rewrite _post_run. destruct (session (self w)) as [h|] eqn:Hs; cbn [snd].
  - exists [ESend h (post_request (self w) url payload)].
    cbn [sent self trace conn_run conn_step]. rewrite Nat.eqb_refl, Hs.
    split; reflexivity.
  - exists []. rewrite app_nil_r, Hs. split; reflexivity.
Qed.

Lemma follows_protocol_ret {A} (a : A) : follows_protocol (ret a).
Proof. apply follows_protocol_same. reflexivity. Qed.

Lemma follows_protocol_lift {A} (r : res A) : follows_protocol (lift r).
Proof. apply follows_protocol_same. reflexivity. Qed.

Lemma follows_protocol_get_self : follows_protocol get_self.
Proof. apply follows_protocol_same. reflexivity. Qed.

Lemma follows_protocol_action_url (key : string) : follows_protocol (action_url key).
Proof.
  apply follows_protocol_same. intros w. rewrite action_url_run.
  destruct (action_endpoints (self w) !! key) as [[m u]|]; reflexivity.
Qed.

#[local] Hint Resolve follows_protocol_ret follows_protocol_lift
  follows_protocol_get_self follows_protocol__get follows_protocol__post
  follows_protocol_action_url : protocol.

Ltac protocol_step :=
  match goal with
  | |- follows_protocol (bind _ _) => apply follows_protocol_bind; [|intros ?]
  | |- follows_protocol (if ?b then _ else _) => destruct b
  | |- follows_protocol _ => solve [auto with protocol]
  end.

Lemma follows_protocol_fetch_entries entries data :
  follows_protocol (fetch_entries net entries data).
Proof.
  revert data. induction entries as [|[key [method url]] rest IH]; intros data.
  - apply follows_protocol_ret.
  - cbn [fetch_entries].
    destruct (String.eqb method "GET"); [|destruct (String.eqb method "POST")].
    + apply follows_protocol_bind; [auto with protocol|intros r; apply IH].
    + apply follows_protocol_bind; [auto with protocol|intros s].
      apply follows_protocol_bind; [auto with protocol|intros r; apply IH].
    + apply IH.
Qed.

Lemma follows_protocol_close : follows_protocol close.
Proof.
  intros w. rewrite close_run. destruct (session (self w)) as [h|] eqn:Hs; cbn [snd].
  - exists [EClose h]. cbn [released self trace set_session session conn_run conn_step].
    rewrite Nat.eqb_refl. split; reflexivity.
  - exists []. rewrite app_nil_r, Hs. split; reflexivity.
Qed.

Lemma follows_protocol_login : follows_protocol (login net py_str).
Proof.
  intros w. destruct (login_connection w) as (Hs & _ & Ht & _).
  rewrite Hs, Ht. eexists. split; [reflexivity|].
  destruct (session (self w)) as [h|]; cbn [default from_option id app conn_run conn_step];
    rewrite Nat.eqb_refl; reflexivity.
Qed.

Lemma follows_protocol_run (c : call) (w : world) :
  ∃ evs,
    trace (run net py_str c w) = (trace w ++ evs)%list
    ∧ conn_run (session (self w)) evs = Some (session (self (run net py_str c w))).
Proof.
  destruct c; cbn [run].
  - apply follows_protocol_login.
  - apply (follows_protocol_bind _ _ (follows_protocol__post _ _)).
    intros _. apply follows_protocol_close.
  - apply follows_protocol_close.
  - revert w. change (follows_protocol (retrieve_all_data net)).
    unfold retrieve_all_data.
    apply follows_protocol_bind; [auto with protocol|intros s].
    apply follows_protocol_bind; [apply follows_protocol_fetch_entries|intros d].
    unfold get_lock_status. repeat protocol_step.
  - revert w. change (follows_protocol (get_lock_status net)).
    unfold get_lock_status. repeat protocol_step.
  - revert w. change (follows_protocol (perform net act)).
    destruct act; cbn [perform];
      unfold arm_system, disarm_system, lock_door, unlock_door,
             turn_on_smartplug, turn_off_smartplug;
      repeat protocol_step.
  - revert w. change (follows_protocol (get_camera_image net serial_no)).
    unfold get_camera_image. repeat protocol_step.
  - apply follows_protocol__get.
  - apply follows_protocol__post.
Qed.

(** X13. On every instance that arises from the constructor by calls,
    in any order and however they end, the events on the wire follow the
    connection protocol: a connection is opened only while none is
    open, every request goes through the connection open at that
    moment, only the open connection is closed, and the connection open
    at the end is exactly the one the instance holds. So no connection
    is ever leaked, used after it was closed, or closed twice. *)
Theorem connection_protocol (w : world) :
  reachable net py_str data_cat action_cat w →
  conn_run None (trace w) = Some (session (self w)).
Proof.
  induction 1 as [e p pid pc|w c Hw IH]; [reflexivity|].
  destruct (follows_protocol_run c w) as (evs & -> & Hc).
  rewrite conn_run_app, IH. exact Hc.
Qed.

End Further.

(** ** The further properties on concrete sessions *)

(** X3, on the demo instance refused at its first [login]. *)
Lemma login_raise_effects_witness :
  headers (self demo_refused) = headers (self demo_new)
  ∧ (access_token (self demo_refused) = access_token (self demo_new)
     ∨ truthy (access_token (self demo_refused)) = false)
  ∧ ∀ url,
      trace (snd (_get net_down url demo_refused)) =
      (trace demo_refused
       ++ [ESend (default (opened demo_new) (session (self demo_new)))
             (mk_request "GET" url None (headers (self demo_new)))])%list.
Proof.
  apply (login_raise_effects net_down str_of demo_new
           (AuthenticationError "Invalid credentials")).
  vm_compute. reflexivity.
Defined.

(** X4, on the same refused [login]. *)
Lemma no_transport_exception_escapes_witness :
  AuthenticationError "Timeout during login" ≠ TimeoutError
  ∧ AuthenticationError "Timeout during login" ≠ ClientError.
Proof.
  apply (no_transport_exception_escapes (net_always (Raise TimeoutError)) str_of
           CLogin demo_new).
  vm_compute. reflexivity.
Defined.

(** X5, on the demo instance before its first [login]. *)
Lemma no_connection_raises_witness :
  (∀ url, _get net_down url demo_new = (Raise (PyError "AttributeError"), demo_new))
  ∧ (∀ url payload,
       _post net_down url payload demo_new
       = (Raise (PyError "AttributeError"), demo_new))
  ∧ get_lock_status net_down demo_new = (Raise (PyError "AttributeError"), demo_new)
  ∧ retrieve_all_data net_down demo_new = (Raise (PyError "AttributeError"), demo_new)
  ∧ (∀ serial_no,
       get_camera_image net_down serial_no demo_new
       = (Raise (PyError "AttributeError"), demo_new))
  ∧ logout net_down demo_new = (Raise (PyError "AttributeError"), demo_new)
  ∧ (∀ act url,
       action_target (self demo_new) act = Some url →
       perform net_down act demo_new = (Raise (PyError "AttributeError"), demo_new)).
Proof. apply (no_connection_raises net_down demo_new). reflexivity. Defined.

(** X7, on an instance without action catalog: disarming. *)
Lemma action_without_entry_witness :
  perform net_down Disarm demo_bare = (Raise (PyError "KeyError"), demo_bare)
  ∧ (∀ plug_id, Disarm ≠ PlugOn plug_id ∧ Disarm ≠ PlugOff plug_id).
Proof. apply (action_without_entry net_down Disarm demo_bare). reflexivity. Defined.

(** X8, on the demo session against a service that serves the
    temperature list: three requests, in order. *)
Lemma retrieve_all_data_requests_witness :
  ∃ h,
    session (self (demo_session (json_response temperatures))) = Some h
    ∧ trace (demo_after_retrieve (json_response temperatures)) =
      (trace (demo_session (json_response temperatures))
       ++ map (ESend h)
            (retrieve_requests (self (demo_session (json_response temperatures)))))%list
    ∧ clock (demo_after_retrieve (json_response temperatures)) =
      (clock (demo_session (json_response temperatures))
       + length (retrieve_requests
                   (self (demo_session (json_response temperatures)))))%nat
    ∧ Forall (λ rq, rq_headers rq
                    = headers (self (demo_session (json_response temperatures))))
        (retrieve_requests (self (demo_session (json_response temperatures)))).
Proof.
  apply (retrieve_all_data_requests (demo_net (json_response temperatures))
           (demo_session (json_response temperatures))
           (demo_after_retrieve (json_response temperatures))
           (demo_snapshot (json_response temperatures))).
  vm_compute. reflexivity.
Defined.

Example retrieve_requests_demo :
  map rq_method (retrieve_requests (self (demo_session (json_response temperatures))))
  = ["GET"; "POST"; "GET"]
  ∧ map rq_url (retrieve_requests (self (demo_session (json_response temperatures))))
    = [API_URL ++ "/api/panel/GetLogs?panelId=42";
       API_URL ++ "/api/v2/housecheck/temperatures";
       API_URL ++ "/api/panel/GetLockStatus?panelId=42"].
Proof. split; vm_compute; reflexivity. Qed.

(** X9, on the same snapshot: the value under ["Temperatures"]. *)
Lemma snapshot_values_witness :
  temperatures ≠ JNull
  ∧ (("Temperatures" = "Lock Status"
      ∧ (truthy temperatures = true ∨ temperatures = JArray []))
     ∨ ("Temperatures"
          ∈ (fst <$> data_endpoints (self (demo_session (json_response temperatures))))
        ∧ truthy temperatures = true)).
Proof.
  apply (snapshot_values (demo_net (json_response temperatures))
           (demo_session (json_response temperatures))
           (demo_after_retrieve (json_response temperatures))
           (demo_snapshot (json_response temperatures))
           "Temperatures" temperatures).
  - vm_compute. reflexivity.
  - vm_compute. reflexivity.
Defined.

(** X10, on the instance that holds a connection after a refused
    [login], against the service that is down. *)
Lemma retrieve_all_data_service_down_witness :
  fst (retrieve_all_data net_down demo_refused)
  = Ret (<["Lock Status" := JArray []]> ∅).
Proof.
  apply (retrieve_all_data_service_down net_down demo_refused 0%nat).
  - reflexivity.
  - intros n rq.
    apply (outcome_bad_status (error_response 503) "<html>error</html>");
      [discriminate|reflexivity].
Defined.

(** X11, on the camera scenario that serves ["aGVsbG8="]. *)
Lemma camera_image_only_from_ImageData_witness :
  ∃ fields s,
    _post (demo_net (json_response (JObject [("ImageData", JString "aGVsbG8=")])))
      camera_url
      (camera_payload
         (self (demo_session
                  (json_response (JObject [("ImageData", JString "aGVsbG8=")]))))
         "cam1")
      (demo_session (json_response (JObject [("ImageData", JString "aGVsbG8=")])))
    = (Ret (JObject fields),
       snd (get_camera_image
              (demo_net (json_response (JObject [("ImageData", JString "aGVsbG8=")])))
              "cam1"
              (demo_session
                 (json_response (JObject [("ImageData", JString "aGVsbG8=")])))))
    ∧ assoc "ImageData" fields = Some (JString s)
    ∧ s ≠ ""
    ∧ b64decode (JString s) = Ret ["h"; "e"; "l"; "l"; "o"]%byte.
Proof.
  apply (camera_image_only_from_ImageData
           (demo_net (json_response (JObject [("ImageData", JString "aGVsbG8=")])))
           "cam1"
           (demo_session (json_response (JObject [("ImageData", JString "aGVsbG8=")])))).
  vm_compute. reflexivity.
Defined.

(** X12, on a service that answers the camera POST with a list. *)
Lemma camera_image_escapes_witness :
  get_camera_image (demo_net (json_response (JArray [JInt 1]))) "cam1"
    (demo_session (json_response (JArray [JInt 1])))
  = (Raise (PyError "AttributeError"),
     snd (_post (demo_net (json_response (JArray [JInt 1]))) camera_url
            (camera_payload (self (demo_session (json_response (JArray [JInt 1]))))
               "cam1")
            (demo_session (json_response (JArray [JInt 1]))))).
Proof.
  apply (proj1 (camera_image_escapes (demo_net (json_response (JArray [JInt 1])))
                  "cam1" (demo_session (json_response (JArray [JInt 1]))) _
                  (JArray [JInt 1]) ltac:(vm_compute; reflexivity) eq_refl)).
  discriminate.
Defined.

Example camera_image_type_error :
  fst (get_camera_image (demo_net (json_response (JObject [("ImageData", JInt 7)])))
         "cam1" (demo_session (json_response (JObject [("ImageData", JInt 7)]))))
  = Raise (PyError "TypeError")
  ∧ fst (get_camera_image
           (demo_net (json_response (JObject [("ImageData", JString "abc")])))
           "cam1" (demo_session (json_response (JObject [("ImageData", JString "abc")]))))
    = Raise (PyError "binascii.Error").
Proof. split; vm_compute; reflexivity. Qed.

(** X13, on the demo instance after login, a snapshot, logout, a second
    logout and a new login. *)
Lemma connection_protocol_witness :
  conn_run None
    (trace (run (demo_net (error_response 500)) str_of CLogin
              (run (demo_net (error_response 500)) str_of CLogout
                 (run (demo_net (error_response 500)) str_of CLogout
                    (run (demo_net (error_response 500)) str_of CRetrieveAllData
                       (run (demo_net (error_response 500)) str_of CLogin demo_new))))))
  = Some (session
            (self (run (demo_net (error_response 500)) str_of CLogin
                     (run (demo_net (error_response 500)) str_of CLogout
                        (run (demo_net (error_response 500)) str_of CLogout
                           (run (demo_net (error_response 500)) str_of CRetrieveAllData
                              (run (demo_net (error_response 500)) str_of CLogin
                                 demo_new))))))).
Proof.
  apply (connection_protocol (demo_net (error_response 500)) str_of
           demo_catalog demo_actions).
  repeat apply reachable_call. apply reachable_new.
Defined.

Example connection_protocol_demo :
  trace (run (demo_net (error_response 500)) str_of CLogin
           (run (demo_net (error_response 500)) str_of CLogout
              (run (demo_net (error_response 500)) str_of CLogin demo_new)))
  = [EOpen 0%nat; ESend 0%nat (login_request (self demo_new));
     ESend 0%nat
       (mk_request "POST" (API_URL ++ "/api/Login/Logout") (Some (JObject []))
          (bearer_headers "t1"));
     EClose 0%nat;
     EOpen 1%nat; ESend 1%nat (login_request (self demo_new))].
Proof. vm_compute. reflexivity. Qed.

(** X14, on the demo session against a service whose bodies do not
    decode: the walk stops at the first request. *)
Lemma retrieve_all_data_stops_at_failure_witness :
  ∃ i rq,
    retrieve_requests (self (demo_session undecodable)) !! i = Some rq
    ∧ exchange (demo_net undecodable (clock (demo_session undecodable) + i)%nat rq)
      = Raise (PyError "JSONDecodeError")
    ∧ absorbed (PyError "JSONDecodeError") = false
    ∧ trace (demo_after_retrieve undecodable) =
      (trace (demo_session undecodable)
       ++ map (ESend 0%nat)
            (take (S i) (retrieve_requests (self (demo_session undecodable)))))%list.
Proof.
  apply (retrieve_all_data_stops_at_failure (demo_net undecodable)
           (demo_session undecodable) (demo_after_retrieve undecodable) 0%nat).
  - reflexivity.
  - vm_compute. reflexivity.
Defined.

(** X15, on the demo session against a service whose bodies do not
    decode. *)
Lemma logout_failure_keeps_connection_witness :
  logout (demo_net undecodable) (demo_session undecodable)
  = (Raise (PyError "JSONDecodeError"),
     sent 0%nat (logout_request (self (demo_session undecodable)))
          (demo_session undecodable))
  ∧ session (self (snd (logout (demo_net undecodable) (demo_session undecodable))))
    = Some 0%nat.
Proof.
  apply (logout_failure_keeps_connection (demo_net undecodable)
           (demo_session undecodable) 0%nat (PyError "JSONDecodeError"));
    reflexivity.
Defined.

(** C1, as stated, fails on an answer whose body cannot be decoded as
    text: the status is 500, or 200 with a content type that is not
    JSON, the executor awaits [response.text()] for its log line, and
    the [UnicodeDecodeError] is caught by neither [except] clause. *)
Lemma C1_counterexample :
  (status (garbled 500) ≠ 200
   ∧ fst (_get (demo_net (garbled 500)) "https://x/" (demo_session (garbled 500)))
     = Raise (PyError "UnicodeDecodeError")
   ∧ fst (_post (demo_net (garbled 500)) "https://x/" (JObject [])
            (demo_session (garbled 500)))
     = Raise (PyError "UnicodeDecodeError"))
  ∧
  (status (garbled 200) = 200
   ∧ is_json (garbled 200) = false
   ∧ fst (_get (demo_net (garbled 200)) "https://x/" (demo_session (garbled 200)))
     = Raise (PyError "UnicodeDecodeError")).
Proof. repeat split; try discriminate; vm_compute; reflexivity. Qed.

(** C9, as stated, fails on the same answer: the logout endpoint
    answers 500 with a body that cannot be decoded as text, the
    exception escapes [_post] and [logout], [close] is not reached and
    the connection is still held. *)
Lemma C9_counterexample :
  session (self (demo_session (garbled 500))) = Some 0%nat
  ∧ status (garbled 500) ≠ 200
  ∧ logout (demo_net (garbled 500)) (demo_session (garbled 500))
    = (Raise (PyError "UnicodeDecodeError"),
       sent 0%nat (logout_request (self (demo_session (garbled 500))))
            (demo_session (garbled 500)))
  ∧ session (self (snd (logout (demo_net (garbled 500))
                          (demo_session (garbled 500)))))
    = Some 0%nat.
Proof. repeat split; try discriminate; vm_compute; reflexivity. Qed.
